(** * Yield refresh handler (pages/api/refreshYieldInstruction.ts)

    A shallow embedding of the single request handler of the repository and
    of its two helpers, [computeExpectedYield] and [getNFTMetadata].

    The handler is effectful: it answers on the response object, writes to
    the console, reads accounts over RPC, fetches a JSON document over HTTP
    and submits a transaction.  Effects are modelled by a trace of events
    threaded through a small state-and-exception monad.  Everything the
    handler obtains from a third-party library or from the network is an
    oracle of the environment [Env]; [None] stands for "the call throws (or
    its promise rejects)".

    The fetched metadata document is modelled twice: at the type the source
    declares for it ([MetadataJson], used by the handler and by the yield
    rule), and as the JSON value of any shape that the code really receives
    (module [Untyped]); on documents of the declared shape the two agree.

    JavaScript numbers are modelled by exact integers and rationals.  The
    numbers the handler manipulates are a yield in 2..24, a power of ten and
    a 64-bit account field; the big-number library refuses to convert
    anything of 2^53 or more to or from a number (modelled in [BN_toNumber]
    and [BN_new]), and below that bound the products are exact and the one
    quotient the handler forms is only ever compared with an integer. *)

From Stdlib Require Import ZArith QArith Qround List String Bool Lia DecimalString.
From Stdlib Require Import Permutation.
Import ListNotations.
Open Scope string_scope.
Open Scope list_scope.
Open Scope Z_scope.

(** ** Data model *)

(** An account address; [toString] gives back its base-58 text. *)
Inductive PublicKey : Type := PK (base58 : string).

Definition toString (k : PublicKey) : string :=
  match k with PK s => s end.

Inductive Connection : Type := Conn (endpoint : string).

Inductive Keypair : Type := KP (publicKey : PublicKey).

Inductive Wallet : Type := WalletOf (payer : Keypair).

(** [MetadataJsonAttribute] of the metadata library. *)
Record Attribute : Type := {
  trait_type : string;
  value : string
}.

(** A JSON value, as [axios] hands it over: the fetched document is not
    validated anywhere.  An object is the list of its properties. *)
#[warnings="-register-all"]
Inductive Json : Type :=
| JNull
| JBool (b : bool)
| JNumber (q : Q)
| JString (s : string)
| JArray (l : list Json)
| JObject (ps : list (string * Json)).

(** [MetadataJson]: only the field the handler reads; it is optional in the
    library's type. *)
Record MetadataJson : Type := {
  attributes : option (list Attribute)
}.

Record MetadataDataData : Type := { uri : string }.

Record MetadataData : Type := { data : MetadataDataData }.

(** [export type NFT]. *)
Record NFT : Type := {
  nft_mint : PublicKey;
  onchainMetadata : MetadataData;
  externalMetadata : MetadataJson
}.

(** Parsed reward distributor: the decimal precision is an unsigned byte on
    chain. *)
Record RewardDistributor : Type := {
  rd_pubkey : PublicKey;
  multiplierDecimals : nat
}.

(** Parsed reward entry: the multiplier is a big number. *)
Record RewardEntry : Type := {
  re_pubkey : PublicKey;
  multiplier : Z
}.

Record InitRewardEntryParams : Type := {
  ip_stakeEntryId : PublicKey;
  ip_rewardDistributor : PublicKey;
  ip_rewardEntryId : PublicKey
}.

Record UpdateRewardEntryParams : Type := {
  up_stakePoolId : PublicKey;
  up_rewardDistributorId : PublicKey;
  up_stakeEntryId : PublicKey;
  up_multiplier : Z
}.

Inductive Instruction : Type :=
| InitRewardEntryIx (w : Wallet) (p : InitRewardEntryParams)
| UpdateRewardEntryIx (w : Wallet) (p : UpdateRewardEntryParams).

(** A transaction is the list of its instructions, in the order added. *)
Definition Transaction : Type := list Instruction.

Definition add (t : Transaction) (i : Instruction) : Transaction := t ++ [i].

(** The request: its method and its parsed body, if any.  A field of the
    body may be missing. *)
Record Body : Type := {
  body_mint : option string;
  body_userPubkey : option string;
  body_stakePoolKey : option string
}.

Record Request : Type := {
  method : string;
  body : option Body
}.

Inductive ResponseType : Type := ok | ignored | error.

(** The JSON body of a response: [{message, type?, yieldRate?}]. *)
Record ResponseBody : Type := {
  message : string;
  type : option ResponseType;
  yieldRate : option Z
}.

(** ** Effects *)

Inductive ExternalCall : Type :=
| CfindRewardDistributorId (pool : PublicKey)
| CgetRewardDistributor (id : PublicKey)
| CfindStakeEntryIdFromMint (user pool mint : PublicKey)
| CfindRewardEntryId (distributor stakeEntry : PublicKey)
| CgetRewardEntry (id : PublicKey)
| CwithUpdateRewardEntry (p : UpdateRewardEntryParams)
| CexecuteTransaction (t : Transaction)
| CMetadataGetPDA (mint : string)
| CMetadataLoad (pda : PublicKey)
| CaxiosGet (url : string).

Inductive Exn : Type :=
| TypeError
| SyntaxError
| InvalidPublicKey
| AssertionFailed
| HeadersSent
| ThrownString (s : string)
| Rejected (c : ExternalCall).

(** What [console.log] is called with, one constructor per call site. *)
Inductive LogEntry : Type :=
| LBody (b : option Body)
| LExpectedMultiplier (m : Z)
| LFetchingRewardEntry (id : string)
| LAddingInit
| LCurrentMultiplier (m : Q)
| LNoUpdateNeeded
| LExecuting
| LSendingResponse
| LError (e : Exn)
| LBadgeUnrecognised (v : string)
| LBadgeUnrecognisedValue (v : option Json)
| LMetadataFailed (mint : string).

Inductive Event : Type :=
| Log (l : LogEntry)
| Respond (status : Z) (b : ResponseBody)
| Call (c : ExternalCall)
| Execute (t : Transaction) (w : Wallet) (signers : list Keypair).

Definition Trace : Type := list Event.

(** How a block of statements completes: normally with a value, by a
    [throw], or by the [return] of the enclosing (void) function. *)
Inductive Completion (A : Type) : Type :=
| Normal (a : A)
| Throw (e : Exn)
| Returned.

Arguments Normal {A} a.
Arguments Throw {A} e.
Arguments Returned {A}.

Definition M (A : Type) : Type := Trace -> Completion A * Trace.

Definition ret {A} (a : A) : M A := fun t => (Normal a, t).

Definition bind {A B} (m : M A) (f : A -> M B) : M B :=
  fun t =>
    match m t with
    | (Normal a, t') => f a t'
    | (Throw e, t') => (Throw e, t')
    | (Returned, t') => (Returned, t')
    end.

Notation "x <- m ;; k" := (bind m (fun x => k))
  (at level 61, m at next level, right associativity).
Notation "m ;; k" := (bind m (fun _ => k))
  (at level 61, right associativity).

Definition throw {A} (e : Exn) : M A := fun t => (Throw e, t).

(** [return] inside a void function. *)
Definition return_ {A} : M A := fun t => (Returned, t).

(** [try { body } catch (e) { handle e }]: a [return] in the body leaves the
    function and is not caught. *)
Definition try_catch {A} (body : M A) (handle : Exn -> M A) : M A :=
  fun t =>
    match body t with
    | (Throw e, t') => handle e t'
    | r => r
    end.

(** The body of a void function: falling off the end and [return] both end
    the call normally. *)
Definition function_body (m : M unit) : M unit :=
  fun t =>
    match m t with
    | (Returned, t') => (Normal tt, t')
    | r => r
    end.

Definition emit (e : Event) : M unit := fun t => (Normal tt, t ++ [e]).

Definition console_log (l : LogEntry) : M unit := emit (Log l).

(** Lifting an oracle's answer: [None] is a throw. *)
Definition orThrow {A} (o : option A) (e : Exn) : M A :=
  match o with
  | Some a => ret a
  | None => throw e
  end.

(** ** The environment: third-party libraries, network, configuration *)

Record Env : Type := {
  (** [new PublicKey(s)] accepts the string [s] *)
  validAddress : string -> bool;
  (** [process.env.MAINNET_PRIMARY] *)
  MAINNET_PRIMARY : option string;
  (** [new Connection(endpoint)] accepts the endpoint *)
  validEndpoint : string -> bool;
  (** [process.env.STAKING_ADMIN_PRIVATE_KEY] *)
  STAKING_ADMIN_PRIVATE_KEY : option string;
  (** [Keypair.fromSecretKey(new Uint8Array(JSON.parse(s)))] *)
  ext_secretKey : string -> option Keypair;
  ext_findRewardDistributorId : PublicKey -> option PublicKey;
  ext_getRewardDistributor : Connection -> PublicKey -> option RewardDistributor;
  ext_findStakeEntryIdFromMint :
    Connection -> PublicKey -> PublicKey -> PublicKey -> option PublicKey;
  ext_findRewardEntryId : PublicKey -> PublicKey -> option PublicKey;
  ext_getRewardEntry : Connection -> PublicKey -> option RewardEntry;
  (** the update-instruction builder succeeds *)
  ext_updateRewardEntry : Connection -> Wallet -> UpdateRewardEntryParams -> bool;
  (** the transaction is accepted by the network *)
  ext_executeTransaction : Connection -> Wallet -> Transaction -> list Keypair -> bool;
  ext_MetadataGetPDA : string -> option PublicKey;
  ext_MetadataLoad : Connection -> PublicKey -> option MetadataData;
  ext_axiosGet : string -> option MetadataJson;
  (** whether the response object throws when [send] is called on a
      response that has been sent already *)
  headersSentThrows : bool
}.

(** ** Third-party calls *)

(** An awaited library call: it is recorded, then the oracle answers. *)
Definition external {A} (c : ExternalCall) (o : option A) : M A :=
  emit (Call c) ;; orThrow o (Rejected c).

(** [new PublicKey(v)]: a missing value and a string that is not an address
    both throw. *)
Definition PublicKey_new (env : Env) (v : option string) : M PublicKey :=
  match v with
  | None => throw TypeError
  | Some s => if validAddress env s then ret (PK s) else throw InvalidPublicKey
  end.

(** [new Connection(endpoint)]. *)
Definition Connection_new (env : Env) (endpoint : option string) : M Connection :=
  match endpoint with
  | None => throw TypeError
  | Some s => if validEndpoint env s then ret (Conn s) else throw TypeError
  end.

(** [Keypair.fromSecretKey(new Uint8Array(JSON.parse(v)))]. *)
Definition Keypair_fromSecretKey (env : Env) (v : option string) : M Keypair :=
  match v with
  | None => throw SyntaxError
  | Some s => orThrow (ext_secretKey env s) SyntaxError
  end.

Definition findRewardDistributorId (env : Env) (stakePoolKey : PublicKey) : M PublicKey :=
  external (CfindRewardDistributorId stakePoolKey)
           (ext_findRewardDistributorId env stakePoolKey).

Definition getRewardDistributor (env : Env) (connection : Connection)
    (id : PublicKey) : M RewardDistributor :=
  external (CgetRewardDistributor id) (ext_getRewardDistributor env connection id).

Definition findStakeEntryIdFromMint (env : Env) (connection : Connection)
    (userPubkey stakePoolKey mint : PublicKey) : M PublicKey :=
  external (CfindStakeEntryIdFromMint userPubkey stakePoolKey mint)
           (ext_findStakeEntryIdFromMint env connection userPubkey stakePoolKey mint).

Definition findRewardEntryId (env : Env) (rewardDistributorId stakeEntryId : PublicKey)
    : M PublicKey :=
  external (CfindRewardEntryId rewardDistributorId stakeEntryId)
           (ext_findRewardEntryId env rewardDistributorId stakeEntryId).

Definition getRewardEntry (env : Env) (connection : Connection)
    (id : PublicKey) : M RewardEntry :=
  external (CgetRewardEntry id) (ext_getRewardEntry env connection id).

(** [tryGetAccount(fn)] of the staking library's common package: the account
    if [fn] resolves, [null] if it rejects. *)
Definition tryGetAccount {A} (fn : M A) : M (option A) :=
  fun t =>
    match fn t with
    | (Normal a, t') => (Normal (Some a), t')
    | (_, t') => (Normal None, t')
    end.

(** [initRewardEntry(connection, wallet, params)]: the (synchronous)
    instruction builder. *)
Definition initRewardEntry (connection : Connection) (wallet : Wallet)
    (params : InitRewardEntryParams) : Instruction :=
  InitRewardEntryIx wallet params.

(** Modelled from the spec: [withUpdateRewardEntry] belongs to the staking
    library; it appends an "update reward entry" instruction carrying the
    given multiplier to the transaction. *)
Definition withUpdateRewardEntry (env : Env) (transaction : Transaction)
    (connection : Connection) (wallet : Wallet)
    (params : UpdateRewardEntryParams) : M Transaction :=
  emit (Call (CwithUpdateRewardEntry params)) ;;
  if ext_updateRewardEntry env connection wallet params
  then ret (add transaction (UpdateRewardEntryIx wallet params))
  else throw (Rejected (CwithUpdateRewardEntry params)).

(** [executeTransaction(connection, wallet, transaction, {signers})]: signs
    and submits. *)
Definition executeTransaction (env : Env) (connection : Connection)
    (wallet : Wallet) (transaction : Transaction) (signers : list Keypair) : M unit :=
  emit (Execute transaction wallet signers) ;;
  if ext_executeTransaction env connection wallet transaction signers
  then ret tt
  else throw (Rejected (CexecuteTransaction transaction)).

Definition two53 : Z := 2 ^ 53.

(** [b.toNumber()] of the big-number library: only up to 53 bits. *)
Definition BN_toNumber (b : Z) : M Z :=
  if Z.abs b <? two53 then ret b else throw AssertionFailed.

(** [new BN(n)] for an integral number [n]: only below 2^53. *)
Definition BN_new (n : Z) : M Z :=
  if n <? two53 then ret n else throw AssertionFailed.

Definition headersSent (t : Trace) : bool :=
  existsb (fun e => match e with Respond _ _ => true | _ => false end) t.

(** [res.status(status).send(b)]. *)
Definition send (env : Env) (status : Z) (b : ResponseBody) : M unit :=
  fun t =>
    if headersSent t && headersSentThrows env
    then (Throw HeadersSent, t)
    else (Normal tt, t ++ [Respond status b]).

(** ** [getNFTMetadata] *)

Definition getNFTMetadata (env : Env) (mint : string) (connection : Connection)
    : M (option NFT) :=
  try_catch
    (metadataPDA <- external (CMetadataGetPDA mint) (ext_MetadataGetPDA env mint) ;;
     onchainMetadata <- external (CMetadataLoad metadataPDA)
                                 (ext_MetadataLoad env connection metadataPDA) ;;
     externalMetadata <- external (CaxiosGet (uri (data onchainMetadata)))
                                  (ext_axiosGet env (uri (data onchainMetadata))) ;;
     mintKey <- PublicKey_new env (Some mint) ;;
     ret (Some {| nft_mint := mintKey;
                  onchainMetadata := onchainMetadata;
                  externalMetadata := externalMetadata |}))
    (fun e =>
       console_log (LMetadataFailed mint) ;;
       ret None).

(** ** [computeExpectedYield] *)

Definition legendarySkins : list string :=
  ["Abstract Colors"; "Bat"; "Crystal"; "Demon"; "Dragon"; "Gold"; "Lava"].

(** [list.includes(s)]. *)
Definition includes (l : list string) (s : string) : bool :=
  existsb (String.eqb s) l.

(** Truthiness of a string: the empty string is falsy. *)
Definition truthy (s : string) : bool := negb (String.eqb s "").

(** [attributes?.filter(att => att.trait_type === name)]. *)
Definition filterTrait (name : string) (attributes : option (list Attribute))
    : option (list Attribute) :=
  match attributes with
  | None => None
  | Some l => Some (filter (fun att => String.eqb (trait_type att) name) l)
  end.

(** [xs?.…[0]]: [undefined] when the list is absent or empty. *)
Definition first (xs : option (list Attribute)) : option Attribute :=
  match xs with
  | None => None
  | Some l => nth_error l 0
  end.

Definition computeExpectedYield (env : Env) (mint : PublicKey)
    (connection : Connection) : M Z :=
  nft <- getNFTMetadata env (toString mint) connection ;;
  let attributes :=
    match nft with
    | None => None
    | Some n => attributes (externalMetadata n)
    end in
  let hayYield := 2 in
  let skin := first (filterTrait "Skin" attributes) in
  let hayYield :=
    match skin with
    | Some s =>
        if truthy (value s) && includes legendarySkins (value s)
        then hayYield + 2 else hayYield
    | None => hayYield
    end in
  let badge := filterTrait "Badge" attributes in
  hayYield <-
    match badge with
    | Some (b :: _) =>
        let value := value b in
        if String.eqb value "Bronze" then ret (hayYield + 5)
        else if String.eqb value "Silver" then ret (hayYield + 7)
        else if String.eqb value "Gold" then ret (hayYield + 9)
        else if String.eqb value "Platinum" then ret (hayYield + 11)
        else if String.eqb value "Diamond" then ret (hayYield + 15)
        else console_log (LBadgeUnrecognised value) ;; ret hayYield
    | _ => ret hayYield
    end ;;
  let imposter := first (filterTrait "Vignette" attributes) in
  let hayYield :=
    match imposter with
    | Some i => if String.eqb (value i) "Alpaca" then hayYield + 5 else hayYield
    | None => hayYield
    end in
  ret hayYield.

(** ** The handler (default export) *)

(** A number in a template string (decimal, for an integer). *)
Definition numberToString (n : Z) : string :=
  NilZero.string_of_int (Z.to_int n).

(** [10 ** d]. *)
Definition pow10 (d : nat) : Z := 10 ^ Z.of_nat d.

(** [body.field]: reading a property of a missing body throws. *)
Definition property (b : option Body) (field : Body -> option string)
    : M (option string) :=
  match b with
  | None => throw TypeError
  | Some b => ret (field b)
  end.

Definition onlyPost : ResponseBody :=
  {| message := "Only POST requests allowed"; type := None; yieldRate := None |}.

Definition alreadySet (expectedYield : Z) : ResponseBody :=
  {| message := ("Yield already set to " ++ numberToString expectedYield
                 ++ " $HAY/day")%string;
     type := Some ignored;
     yieldRate := Some expectedYield |}.

Definition updated (expectedYield : Z) : ResponseBody :=
  {| message := "Yield rate was successfully updated";
     type := Some ok;
     yieldRate := Some expectedYield |}.

Definition notCreated : ResponseBody :=
  {| message := "Yield refresh transaction could not be created";
     type := Some error;
     yieldRate := None |}.

Definition handler (env : Env) (req : Request) : M unit :=
  function_body (
    (if negb (String.eqb (method req) "POST")
     then send env 405 onlyPost
     else ret tt) ;;
    let body := body req in
    console_log (LBody body) ;;
    mint <- (v <- property body body_mint ;; PublicKey_new env v) ;;
    userPubkey <- (v <- property body body_userPubkey ;; PublicKey_new env v) ;;
    stakePoolKey <- (v <- property body body_stakePoolKey ;; PublicKey_new env v) ;;
    let endpoint := MAINNET_PRIMARY env in
    connection <- Connection_new env endpoint ;;
    try_catch
      (keypair <- Keypair_fromSecretKey env (STAKING_ADMIN_PRIVATE_KEY env) ;;
       let wallet := WalletOf keypair in
       let transaction : Transaction := [] in
       rewardDistributorId <- findRewardDistributorId env stakePoolKey ;;
       rewardDistributor <-
         tryGetAccount (getRewardDistributor env connection rewardDistributorId) ;;
       match rewardDistributor with
       | None => throw (ThrownString "Reward Distributor for pool not found")
       | Some rewardDistributor =>
           expectedYield <- computeExpectedYield env mint connection ;;
           let expectedMultiplier :=
             expectedYield * pow10 (multiplierDecimals rewardDistributor) in
           console_log (LExpectedMultiplier expectedMultiplier) ;;
           stakeEntryId <-
             findStakeEntryIdFromMint env connection userPubkey stakePoolKey mint ;;
           rewardEntryId <-
             findRewardEntryId env (rd_pubkey rewardDistributor) stakeEntryId ;;
           console_log (LFetchingRewardEntry (toString rewardEntryId)) ;;
           rewardEntryData <-
             tryGetAccount (getRewardEntry env connection rewardEntryId) ;;
           transaction <-
             match rewardEntryData with
             | None =>
                 console_log LAddingInit ;;
                 ret (add transaction
                        (initRewardEntry connection wallet
                           {| ip_stakeEntryId := stakeEntryId;
                              ip_rewardDistributor := rd_pubkey rewardDistributor;
                              ip_rewardEntryId := rewardEntryId |}))
             | Some rewardEntryData =>
                 stored <- BN_toNumber (multiplier rewardEntryData) ;;
                 let currentMultiplier : Q :=
                   (inject_Z stored /
                    inject_Z (pow10 (multiplierDecimals rewardDistributor)))%Q in
                 console_log (LCurrentMultiplier currentMultiplier) ;;
                 if Qeq_bool currentMultiplier (inject_Z expectedMultiplier)
                 then
                   console_log LNoUpdateNeeded ;;
                   send env 200 (alreadySet expectedYield) ;;
                   return_
                 else ret transaction
             end ;;
           bn <- BN_new expectedMultiplier ;;
           transaction <-
             withUpdateRewardEntry env transaction connection wallet
               {| up_stakePoolId := stakePoolKey;
                  up_rewardDistributorId := rd_pubkey rewardDistributor;
                  up_stakeEntryId := stakeEntryId;
                  up_multiplier := bn |} ;;
           console_log LExecuting ;;
           executeTransaction env connection wallet transaction [keypair] ;;
           console_log LSendingResponse ;;
           send env 200 (updated expectedYield)
       end)
      (fun error =>
         console_log (LError error) ;;
         send env 500 notCreated)
  ).

(** ** A sample environment

    Every collaborator answers: addresses are the strings of 32 to 44
    characters, the distributor of a pool has the given decimal precision,
    the reward entry holds the given multiplier (if it exists at all), and
    the metadata document lists the given attributes. *)

Definition between32and44 (s : string) : bool :=
  (32 <=? String.length s)%nat && (String.length s <=? 44)%nat.

Definition sampleEnv (decimals : nat) (entry : option Z)
    (attrs : option (list Attribute)) (resend : bool) : Env :=
  {| validAddress := between32and44;
     MAINNET_PRIMARY := Some "https://rpc.example";
     validEndpoint := fun _ => true;
     STAKING_ADMIN_PRIVATE_KEY := Some "[1,2,3]";
     ext_secretKey := fun _ => Some (KP (PK "AdminAdminAdminAdminAdminAdminAdmin1"));
     ext_findRewardDistributorId := fun pool => Some (PK ("rd:" ++ toString pool));
     ext_getRewardDistributor := fun _ id =>
       Some {| rd_pubkey := id; multiplierDecimals := decimals |};
     ext_findStakeEntryIdFromMint := fun _ _ _ mint => Some (PK ("se:" ++ toString mint));
     ext_findRewardEntryId := fun _ se => Some (PK ("re:" ++ toString se));
     ext_getRewardEntry := fun _ id =>
       match entry with
       | Some m => Some {| re_pubkey := id; multiplier := m |}
       | None => None
       end;
     ext_updateRewardEntry := fun _ _ _ => true;
     ext_executeTransaction := fun _ _ _ _ => true;
     ext_MetadataGetPDA := fun mint => Some (PK ("md:" ++ mint));
     ext_MetadataLoad := fun _ _ => Some {| data := {| uri := "https://meta.example/1.json" |} |};
     ext_axiosGet := fun _ => Some {| attributes := attrs |};
     headersSentThrows := resend |}.

Definition attr (t v : string) : Attribute := {| trait_type := t; value := v |}.

Definition mintAddress : string := "So11111111111111111111111111111111111111112".

Definition userAddress : string := "Vote111111111111111111111111111111111111111".

Definition poolAddress : string := "Stake11111111111111111111111111111111111111".

Definition sampleBody : Body :=
  {| body_mint := Some mintAddress;
     body_userPubkey := Some userAddress;
     body_stakePoolKey := Some poolAddress |}.

Definition post (b : Body) : Request := {| method := "POST"; body := Some b |}.

(** ** The yield rule, as the specification words it

    Base rate 2; +2 for a legendary skin; the tier bonus of the badge; +5
    for the "Alpaca" vignette; each read from the first attribute carrying
    the trait. *)

(** Value of the first attribute whose trait is [name]. *)
Definition traitValue (name : string) (attrs : option (list Attribute))
    : option string :=
  match attrs with
  | None => None
  | Some l => option_map value (find (fun a => String.eqb (trait_type a) name) l)
  end.

Definition skinBonus (v : option string) : Z :=
  match v with
  | Some s => if in_dec string_dec s legendarySkins then 2 else 0
  | None => 0
  end.

Definition badgeTiers : list (string * Z) :=
  [("Bronze", 5); ("Silver", 7); ("Gold", 9); ("Platinum", 11); ("Diamond", 15)].

Definition tierBonus (v : string) : Z :=
  match find (fun p => String.eqb v (fst p)) badgeTiers with
  | Some p => snd p
  | None => 0
  end.

Definition badgeBonus (v : option string) : Z :=
  match v with
  | Some s => tierBonus s
  | None => 0
  end.

Definition vignetteBonus (v : option string) : Z :=
  match v with
  | Some s => if string_dec s "Alpaca" then 5 else 0
  | None => 0
  end.

Definition yieldRule (attrs : option (list Attribute)) : Z :=
  2 + skinBonus (traitValue "Skin" attrs)
    + badgeBonus (traitValue "Badge" attrs)
    + vignetteBonus (traitValue "Vignette" attrs).

(** The attribute list of a fetched NFT; absent metadata has none. *)
Definition attributesOf (nft : option NFT) : option (list Attribute) :=
  match nft with
  | None => None
  | Some n => attributes (externalMetadata n)
  end.

Definition isBadge (a : Attribute) : bool := String.eqb (trait_type a) "Badge".

(** ** Observations on a trace *)

Definition responses (t : Trace) : list (Z * ResponseBody) :=
  flat_map (fun e => match e with Respond s b => [(s, b)] | _ => [] end) t.

Definition submitted (t : Trace) : list Transaction :=
  flat_map (fun e => match e with Execute tx _ _ => [tx] | _ => [] end) t.

(** Events that neither answer the request nor touch the chain. *)
Definition quiet (e : Event) : bool :=
  match e with
  | Log _ | Call _ => true
  | Respond _ _ | Execute _ _ _ => false
  end.

(** The value [computeExpectedYield] returns for a mint. *)
Definition expectedYieldOf (env : Env) (mint : PublicKey) (connection : Connection) : Z :=
  match fst (computeExpectedYield env mint connection []) with
  | Normal y => y
  | _ => 0
  end.

(** When one step of the metadata chain fails. *)
Definition chainFails (env : Env) (mint : string) (connection : Connection) : Prop :=
  ext_MetadataGetPDA env mint = None
  \/ (exists pda, ext_MetadataGetPDA env mint = Some pda
        /\ (ext_MetadataLoad env connection pda = None
            \/ exists md, ext_MetadataLoad env connection pda = Some md
                 /\ (ext_axiosGet env (uri (data md)) = None
                     \/ validAddress env mint = false))).

(** The stored multiplier, descaled by the decimal precision:
    [multiplier.toNumber() / 10 ** decimals]. *)
Definition descaled (stored : Z) (d : nat) : Q :=
  (inject_Z stored / inject_Z (pow10 d))%Q.

(** The multiplier the handler expects on chain for a mint:
    [expectedYield * 10 ** multiplierDecimals]. *)
Definition expectedMultiplierOf (env : Env) (mint : PublicKey)
    (connection : Connection) (rd : RewardDistributor) : Z :=
  expectedYieldOf env mint connection * pow10 (multiplierDecimals rd).

Definition updateParams (stakePoolKey : PublicKey) (rd : RewardDistributor)
    (stakeEntryId : PublicKey) (m : Z) : UpdateRewardEntryParams :=
  {| up_stakePoolId := stakePoolKey;
     up_rewardDistributorId := rd_pubkey rd;
     up_stakeEntryId := stakeEntryId;
     up_multiplier := m |}.

Definition initParams (rd : RewardDistributor)
    (stakeEntryId rewardEntryId : PublicKey) : InitRewardEntryParams :=
  {| ip_stakeEntryId := stakeEntryId;
     ip_rewardDistributor := rd_pubkey rd;
     ip_rewardEntryId := rewardEntryId |}.

(** The transaction the handler builds when it does not answer "already
    set": the initialisation first when the entry is missing, then the
    update. *)
Definition builtTransaction (keypair : Keypair) (stakePoolKey : PublicKey)
    (rd : RewardDistributor) (stakeEntryId rewardEntryId : PublicKey)
    (m : Z) (entry : option RewardEntry) : Transaction :=
  match entry with
  | None => [InitRewardEntryIx (WalletOf keypair)
               (initParams rd stakeEntryId rewardEntryId)]
  | Some _ => []
  end ++ [UpdateRewardEntryIx (WalletOf keypair)
            (updateParams stakePoolKey rd stakeEntryId m)].

(** Rounding to the nearest integer, as in the specification's
    [round(yield × 10^decimals)]. *)
Definition rounded (q : Q) : Z := Qfloor (q + (1 # 2))%Q.

(** The sample environment with the metadata host down. *)
Definition hostDown (e : Env) : Env :=
  {| validAddress := validAddress e;
     MAINNET_PRIMARY := MAINNET_PRIMARY e;
     validEndpoint := validEndpoint e;
     STAKING_ADMIN_PRIVATE_KEY := STAKING_ADMIN_PRIVATE_KEY e;
     ext_secretKey := ext_secretKey e;
     ext_findRewardDistributorId := ext_findRewardDistributorId e;
     ext_getRewardDistributor := ext_getRewardDistributor e;
     ext_findStakeEntryIdFromMint := ext_findStakeEntryIdFromMint e;
     ext_findRewardEntryId := ext_findRewardEntryId e;
     ext_getRewardEntry := ext_getRewardEntry e;
     ext_updateRewardEntry := ext_updateRewardEntry e;
     ext_executeTransaction := ext_executeTransaction e;
     ext_MetadataGetPDA := ext_MetadataGetPDA e;
     ext_MetadataLoad := ext_MetadataLoad e;
     ext_axiosGet := fun _ => None;
     headersSentThrows := headersSentThrows e |}.

(** The sample environment for a pool without reward distributor. *)
Definition noDistributor (e : Env) : Env :=
  {| validAddress := validAddress e;
     MAINNET_PRIMARY := MAINNET_PRIMARY e;
     validEndpoint := validEndpoint e;
     STAKING_ADMIN_PRIVATE_KEY := STAKING_ADMIN_PRIVATE_KEY e;
     ext_secretKey := ext_secretKey e;
     ext_findRewardDistributorId := ext_findRewardDistributorId e;
     ext_getRewardDistributor := fun _ _ => None;
     ext_findStakeEntryIdFromMint := ext_findStakeEntryIdFromMint e;
     ext_findRewardEntryId := ext_findRewardEntryId e;
     ext_getRewardEntry := ext_getRewardEntry e;
     ext_updateRewardEntry := ext_updateRewardEntry e;
     ext_executeTransaction := ext_executeTransaction e;
     ext_MetadataGetPDA := ext_MetadataGetPDA e;
     ext_MetadataLoad := ext_MetadataLoad e;
     ext_axiosGet := ext_axiosGet e;
     headersSentThrows := headersSentThrows e |}.

Definition sampleMint : PublicKey := PK mintAddress.

Definition sampleConnection : Connection := Conn "https://rpc.example".

Definition sampleAdmin : Keypair := KP (PK "AdminAdminAdminAdminAdminAdminAdmin1").

Definition sampleDistributorId : PublicKey := PK ("rd:" ++ poolAddress).

Definition sampleDistributor (decimals : nat) : RewardDistributor :=
  {| rd_pubkey := sampleDistributorId; multiplierDecimals := decimals |}.

Definition sampleStakeEntry : PublicKey := PK ("se:" ++ mintAddress).

Definition sampleRewardEntry : PublicKey := PK ("re:" ++ "se:" ++ mintAddress).

(** The NFT the sample environment serves for the sample mint. *)
Definition sampleNFT (attrs : option (list Attribute)) : NFT :=
  {| nft_mint := sampleMint;
     onchainMetadata := {| data := {| uri := "https://meta.example/1.json" |} |};
     externalMetadata := {| attributes := attrs |} |}.

Definition goldPlatinum : option (list Attribute) :=
  Some [attr "Skin" "Gold"; attr "Badge" "Platinum"].

(** A request with the right body and the wrong method. *)
Definition sampleGet : Request := {| method := "GET"; body := Some sampleBody |}.

(** Bodies with a malformed and with a missing mint address. *)
Definition malformedMint : Body :=
  {| body_mint := Some "not-an-address";
     body_userPubkey := Some userAddress;
     body_stakePoolKey := Some poolAddress |}.

Definition missingMint : Body :=
  {| body_mint := None;
     body_userPubkey := Some userAddress;
     body_stakePoolKey := Some poolAddress |}.

(** The third-party calls of a trace, in order. *)
Definition calls (t : Trace) : list ExternalCall :=
  flat_map (fun e => match e with Call c => [c] | _ => [] end) t.

(** [new PublicKey(v)] succeeds on the value [v] of a body field. *)
Definition parses (env : Env) (v : option string) : bool :=
  match v with
  | Some s => validAddress env s
  | None => false
  end.

(** The attributes [computeExpectedYield] filters for. *)
Definition relevant (a : Attribute) : bool :=
  String.eqb (trait_type a) "Skin"
  || String.eqb (trait_type a) "Badge"
  || String.eqb (trait_type a) "Vignette".

(** How often a trait occurs in an attribute list. *)
Definition occurrences (name : string) (l : list Attribute) : nat :=
  List.length (filter (fun a => String.eqb (trait_type a) name) l).

(** What [computeExpectedYield] writes to the console after the fetch: the
    value of the first "Badge" attribute when it names no tier. *)
Definition badgeLog (attrs : option (list Attribute)) : Trace :=
  match traitValue "Badge" attrs with
  | Some v => if in_dec string_dec v (map fst badgeTiers)
              then []
              else [Log (LBadgeUnrecognised v)]
  | None => []
  end.

(** The sample environment with a network that rejects transactions. *)
Definition rejecting (e : Env) : Env :=
  {| validAddress := validAddress e;
     MAINNET_PRIMARY := MAINNET_PRIMARY e;
     validEndpoint := validEndpoint e;
     STAKING_ADMIN_PRIVATE_KEY := STAKING_ADMIN_PRIVATE_KEY e;
     ext_secretKey := ext_secretKey e;
     ext_findRewardDistributorId := ext_findRewardDistributorId e;
     ext_getRewardDistributor := ext_getRewardDistributor e;
     ext_findStakeEntryIdFromMint := ext_findStakeEntryIdFromMint e;
     ext_findRewardEntryId := ext_findRewardEntryId e;
     ext_getRewardEntry := ext_getRewardEntry e;
     ext_updateRewardEntry := ext_updateRewardEntry e;
     ext_executeTransaction := fun _ _ _ _ => false;
     ext_MetadataGetPDA := ext_MetadataGetPDA e;
     ext_MetadataLoad := ext_MetadataLoad e;
     ext_axiosGet := ext_axiosGet e;
     headersSentThrows := headersSentThrows e |}.

(** The sample environment without administrative key. *)
Definition keyless (e : Env) : Env :=
  {| validAddress := validAddress e;
     MAINNET_PRIMARY := MAINNET_PRIMARY e;
     validEndpoint := validEndpoint e;
     STAKING_ADMIN_PRIVATE_KEY := None;
     ext_secretKey := ext_secretKey e;
     ext_findRewardDistributorId := ext_findRewardDistributorId e;
     ext_getRewardDistributor := ext_getRewardDistributor e;
     ext_findStakeEntryIdFromMint := ext_findStakeEntryIdFromMint e;
     ext_findRewardEntryId := ext_findRewardEntryId e;
     ext_getRewardEntry := ext_getRewardEntry e;
     ext_updateRewardEntry := ext_updateRewardEntry e;
     ext_executeTransaction := ext_executeTransaction e;
     ext_MetadataGetPDA := ext_MetadataGetPDA e;
     ext_MetadataLoad := ext_MetadataLoad e;
     ext_axiosGet := ext_axiosGet e;
     headersSentThrows := headersSentThrows e |}.

(** Decimal precision 2, yield 15: an entry holding 150000, one holding
    1500 and one holding 7. *)
Definition sampleSet : Env := sampleEnv 2 (Some 150000) goldPlatinum true.

Definition sampleWritten : Env := sampleEnv 2 (Some 1500) goldPlatinum true.

Definition sampleOther : Env := sampleEnv 2 (Some 7) goldPlatinum true.

(** Two attribute lists with the same relevant attributes, and a
    reordering of the first. *)
Definition decorated : list Attribute :=
  [attr "Background" "Blue"; attr "Skin" "Gold"; attr "Hat" "Cap";
   attr "Badge" "Platinum"].

Definition plain : list Attribute :=
  [attr "Skin" "Gold"; attr "Badge" "Platinum"].

Definition reordered : list Attribute :=
  [attr "Badge" "Platinum"; attr "Hat" "Cap"; attr "Skin" "Gold";
   attr "Background" "Blue"].

Definition metadataCalls : Trace :=
  [Call (CMetadataGetPDA mintAddress);
   Call (CMetadataLoad (PK ("md:" ++ mintAddress)));
   Call (CaxiosGet "https://meta.example/1.json")].

(** ** The fetched document as it comes

    [MetadataJson] is the type the source declares for the fetched
    document, but nothing checks it at run time.  This module models
    [getNFTMetadata] and [computeExpectedYield] on the document as a JSON
    value of any shape, with the property reads and the [filter] calls of
    JavaScript: reading a property of [null] and calling [filter] on a
    value that is not an array throw a [TypeError].  The fetch is the
    oracle [fetch]; the other collaborators are those of [Env]. *)

Module Untyped.

Record NFT : Type := {
  nft_mint : PublicKey;
  onchainMetadata : MetadataData;
  externalMetadata : Json
}.

Fixpoint lookup (k : string) (ps : list (string * Json)) : option Json :=
  match ps with
  | [] => None
  | (k', v) :: rest => if String.eqb k' k then Some v else lookup k rest
  end.

(** [v.k]: [None] is [undefined]. *)
Definition member (v : Json) (k : string) : M (option Json) :=
  match v with
  | JNull => throw TypeError
  | JObject ps => ret (lookup k ps)
  | _ => ret None
  end.

(** [v === s] for a string literal [s]. *)
Definition strictEq (v : option Json) (s : string) : bool :=
  match v with
  | Some (JString s') => String.eqb s' s
  | _ => false
  end.

(** Truthiness of a value. *)
Definition truthy (v : option Json) : bool :=
  match v with
  | None => false
  | Some JNull => false
  | Some (JBool b) => b
  | Some (JNumber q) => negb (Qeq_bool q 0)
  | Some (JString s) => negb (String.eqb s "")
  | Some (JArray _) => true
  | Some (JObject _) => true
  end.

(** [list.includes(v)] for a list of strings. *)
Definition includes (l : list string) (v : option Json) : bool :=
  match v with
  | Some (JString s) => existsb (String.eqb s) l
  | _ => false
  end.

(** [l.filter(att => att.trait_type === name)] on the elements of an
    array. *)
Fixpoint filterList (name : string) (l : list Json) : M (list Json) :=
  match l with
  | [] => ret []
  | att :: rest =>
      t <- member att "trait_type" ;;
      kept <- filterList name rest ;;
      ret (if strictEq t name then att :: kept else kept)
  end.

(** [attributes?.filter(att => att.trait_type === name)]. *)
Definition filterTrait (name : string) (attributes : option Json)
    : M (option (list Json)) :=
  match attributes with
  | None => ret None
  | Some JNull => ret None
  | Some (JArray l) => kept <- filterList name l ;; ret (Some kept)
  | Some _ => throw TypeError
  end.

(** [xs?.…[0]]. *)
Definition first (xs : option (list Json)) : option Json :=
  match xs with
  | None => None
  | Some l => nth_error l 0
  end.

(** [x?.value]: [undefined] when [x] is [undefined] or [null]. *)
Definition valueOf (x : option Json) : M (option Json) :=
  match x with
  | None => ret None
  | Some JNull => ret None
  | Some v => member v "value"
  end.

Definition getNFTMetadata (env : Env) (fetch : string -> option Json)
    (mint : string) (connection : Connection) : M (option NFT) :=
  try_catch
    (metadataPDA <- external (CMetadataGetPDA mint) (ext_MetadataGetPDA env mint) ;;
     onchainMetadata <- external (CMetadataLoad metadataPDA)
                                 (ext_MetadataLoad env connection metadataPDA) ;;
     externalMetadata <- external (CaxiosGet (uri (data onchainMetadata)))
                                  (fetch (uri (data onchainMetadata))) ;;
     mintKey <- PublicKey_new env (Some mint) ;;
     ret (Some {| nft_mint := mintKey;
                  onchainMetadata := onchainMetadata;
                  externalMetadata := externalMetadata |}))
    (fun e =>
       console_log (LMetadataFailed mint) ;;
       ret None).

Definition computeExpectedYield (env : Env) (fetch : string -> option Json)
    (mint : PublicKey) (connection : Connection) : M Z :=
  nft <- getNFTMetadata env fetch (toString mint) connection ;;
  attributes <-
    match nft with
    | None => ret None
    | Some n => member (externalMetadata n) "attributes"
    end ;;
  let hayYield := 2 in
  skins <- filterTrait "Skin" attributes ;;
  let skin := first skins in
  skinValue <- valueOf skin ;;
  let hayYield :=
    if truthy skinValue && includes legendarySkins skinValue
    then hayYield + 2 else hayYield in
  badge <- filterTrait "Badge" attributes ;;
  hayYield <-
    match badge with
    | Some (b :: _) =>
        value <- valueOf (Some b) ;;
        if strictEq value "Bronze" then ret (hayYield + 5)
        else if strictEq value "Silver" then ret (hayYield + 7)
        else if strictEq value "Gold" then ret (hayYield + 9)
        else if strictEq value "Platinum" then ret (hayYield + 11)
        else if strictEq value "Diamond" then ret (hayYield + 15)
        else console_log (LBadgeUnrecognisedValue value) ;; ret hayYield
    | _ => ret hayYield
    end ;;
  imposters <- filterTrait "Vignette" attributes ;;
  let imposter := first imposters in
  isImposter <-
    (if truthy imposter
     then imposterValue <- valueOf imposter ;; ret (strictEq imposterValue "Alpaca")
     else ret false) ;;
  let hayYield := if isImposter then hayYield + 5 else hayYield in
  ret hayYield.

(** When one step of the chain fails, the fetch being [fetch]. *)
Definition chainFails (env : Env) (fetch : string -> option Json)
    (mint : string) (connection : Connection) : Prop :=
  ext_MetadataGetPDA env mint = None
  \/ (exists pda, ext_MetadataGetPDA env mint = Some pda
        /\ (ext_MetadataLoad env connection pda = None
            \/ exists md, ext_MetadataLoad env connection pda = Some md
                 /\ (fetch (uri (data md)) = None
                     \/ validAddress env mint = false))).

End Untyped.





(** Decimal precision 8 and the base yield 2: the expected multiplier is
    2·10^8, and the stored multiplier whose descaled value equals it is
    2·10^16, above 2^53. *)
Definition sampleLarge : Env := sampleEnv 8 (Some 20000000000000000) None true.

(** Decimal precision 15 and a yield of 15: the expected multiplier is
    15·10^15, above 2^53; the entry holds 7. *)
Definition sampleOverflow : Env := sampleEnv 15 (Some 7) goldPlatinum true.






(** ** Lemmas on lists and strings *)

Lemma first_filter (p : Attribute -> bool) (l : list Attribute) :
  nth_error (filter p l) 0 = find p l.
Proof.
  induction l as [|a l IH]; simpl; [reflexivity|].
  destruct (p a); simpl; auto.
Qed.

Lemma filter_head (p : Attribute -> bool) (l : list Attribute) :
  match filter p l with
  | [] => find p l = None
  | b :: _ => find p l = Some b
  end.
Proof.
  rewrite <- first_filter. destruct (filter p l); reflexivity.
Qed.

Lemma includes_In (l : list string) (s : string) :
  includes l s = true <-> In s l.
Proof.
  unfold includes. rewrite existsb_exists. split.
  - intros (x & Hx & E). apply String.eqb_eq in E. now subst.
  - intros H. exists s. split; [assumption | apply String.eqb_refl].
Qed.

Lemma legendary_truthy (s : string) : In s legendarySkins -> truthy s = true.
Proof.
  unfold legendarySkins. simpl.
  intros H; repeat (destruct H as [H|H]; [subst; reflexivity|]); contradiction.
Qed.

Lemma skin_test (s : string) :
  (if truthy s && includes legendarySkins s then 2 + 2 else 2)
  = 2 + skinBonus (Some s).
Proof.
  unfold skinBonus. destruct (in_dec string_dec s legendarySkins) as [i|n].
  - rewrite (legendary_truthy s i). apply includes_In in i. now rewrite i.
  - destruct (includes legendarySkins s) eqn:E.
    + apply includes_In in E. contradiction.
    + now rewrite andb_false_r.
Qed.

Lemma vignette_test (s : string) :
  (if String.eqb s "Alpaca" then 5 else 0) = vignetteBonus (Some s).
Proof.
  unfold vignetteBonus. destruct (string_dec s "Alpaca") as [e|n].
  - subst. reflexivity.
  - apply String.eqb_neq in n. now rewrite n.
Qed.

Lemma tierBonus_cases (v : string) :
  tierBonus v =
    if String.eqb v "Bronze" then 5
    else if String.eqb v "Silver" then 7
    else if String.eqb v "Gold" then 9
    else if String.eqb v "Platinum" then 11
    else if String.eqb v "Diamond" then 15
    else 0.
Proof.
  unfold tierBonus, badgeTiers. simpl.
  repeat (match goal with |- context [String.eqb v ?s] => destruct (String.eqb v s) end;
          [reflexivity|]).
  reflexivity.
Qed.

Lemma tierBonus_values (v : string) : In (tierBonus v) [0; 5; 7; 9; 11; 15].
Proof.
  rewrite tierBonus_cases.
  repeat (match goal with |- context [String.eqb v ?s] => destruct (String.eqb v s) end;
          [simpl; tauto|]).
  simpl; tauto.
Qed.

Lemma tierBonus_unrecognised (v : string) :
  ~ In v (map fst badgeTiers) -> tierBonus v = 0.
Proof.
  intros H. rewrite tierBonus_cases. simpl in H.
  repeat (match goal with
          | |- context [String.eqb v ?s] =>
              let E := fresh "E" in
              destruct (String.eqb v s) eqn:E;
              [apply String.eqb_eq in E; subst; exfalso; apply H; tauto|]
          end).
  reflexivity.
Qed.

(** ** What [getNFTMetadata] and [computeExpectedYield] do *)

(** Run a computation whose oracle answers are among the hypotheses. *)
Ltac unfold_monad :=
  cbv beta iota zeta delta
    [handler function_body try_catch bind ret throw return_ emit console_log
     orThrow external PublicKey_new Connection_new Keypair_fromSecretKey
     findRewardDistributorId getRewardDistributor findStakeEntryIdFromMint
     findRewardEntryId getRewardEntry tryGetAccount initRewardEntry
     withUpdateRewardEntry executeTransaction BN_toNumber BN_new send property
     add negb andb getNFTMetadata];
  cbn [app].

Ltac use_answers :=
  repeat (unfold_monad;
          match goal with
          | H : ?o = _ |- context [?o] => rewrite H
          end);
  unfold_monad.

Ltac flatten_trace := use_answers; rewrite <- ?app_assoc; reflexivity.

Lemma getNFTMetadata_run (env : Env) (mint : string) (connection : Connection) :
  exists r d, forallb quiet d = true
    /\ (chainFails env mint connection -> r = None)
    /\ forall t, getNFTMetadata env mint connection t = (Normal r, t ++ d).
Proof.
  unfold getNFTMetadata, try_catch, bind, external, emit, orThrow, PublicKey_new,
    console_log, emit, ret, throw, chainFails.
  destruct (ext_MetadataGetPDA env mint) as [pda|] eqn:E1.
  2:{ exists None, [Call (CMetadataGetPDA mint); Log (LMetadataFailed mint)].
      repeat split. intros t. flatten_trace. }
  destruct (ext_MetadataLoad env connection pda) as [md|] eqn:E2.
  2:{ exists None, [Call (CMetadataGetPDA mint); Call (CMetadataLoad pda);
                    Log (LMetadataFailed mint)].
      repeat split. intros t. flatten_trace. }
  destruct (ext_axiosGet env (uri (data md))) as [js|] eqn:E3.
  2:{ exists None, [Call (CMetadataGetPDA mint); Call (CMetadataLoad pda);
                    Call (CaxiosGet (uri (data md))); Log (LMetadataFailed mint)].
      repeat split. intros t. flatten_trace. }
  destruct (validAddress env mint) eqn:E4.
  2:{ exists None, [Call (CMetadataGetPDA mint); Call (CMetadataLoad pda);
                    Call (CaxiosGet (uri (data md))); Log (LMetadataFailed mint)].
      repeat split. intros t. flatten_trace. }
  eexists (Some _), [Call (CMetadataGetPDA mint); Call (CMetadataLoad pda);
                     Call (CaxiosGet (uri (data md)))].
  split; [reflexivity|]. split.
  - intros [H|(pda' & H1 & [H|(md' & H2 & [H|H])])]; try discriminate.
    + injection H1 as <-. congruence.
    + injection H1 as <-. rewrite E2 in H2. injection H2 as <-. congruence.
  - intros t. flatten_trace.
Qed.

Lemma computeExpectedYield_bind (env : Env) (mint : PublicKey)
    (connection : Connection) (nft : option NFT) :
  exists d, forallb quiet d = true
    /\ forall t t1,
         getNFTMetadata env (toString mint) connection t = (Normal nft, t1) ->
         computeExpectedYield env mint connection t
         = (Normal (yieldRule (attributesOf nft)), t1 ++ d).
Proof.
  unfold yieldRule.
  destruct (attributesOf nft) as [l|] eqn:EA.
  2:{ exists []. split; [reflexivity|]. intros t t1 H.
      unfold computeExpectedYield, bind at 1. rewrite H.
      fold (attributesOf nft). rewrite EA. cbn. now rewrite app_nil_r. }
  assert (Hskin :
    match find (fun att => String.eqb (trait_type att) "Skin") l with
    | Some s => if truthy (value s) && includes legendarySkins (value s)
                then 2 + 2 else 2
    | None => 2
    end = 2 + skinBonus (traitValue "Skin" (Some l))).
  { unfold traitValue.
    destruct (find (fun att => String.eqb (trait_type att) "Skin") l);
      cbn [option_map];
      [apply skin_test | reflexivity]. }
  assert (Hvig : forall y,
    match find (fun att => String.eqb (trait_type att) "Vignette") l with
    | Some i => if String.eqb (value i) "Alpaca" then y + 5 else y
    | None => y
    end = y + vignetteBonus (traitValue "Vignette" (Some l))).
  { intros y. unfold traitValue.
    destruct (find (fun att => String.eqb (trait_type att) "Vignette") l) as [i|];
      cbn [option_map].
    - rewrite <- vignette_test. destruct (String.eqb (value i) "Alpaca"); lia.
    - cbn. lia. }
  pose proof (filter_head (fun att => String.eqb (trait_type att) "Badge") l) as Hb.
  set (s := skinBonus _) in *. set (v := vignetteBonus _) in *.
  destruct (filter (fun att => String.eqb (trait_type att) "Badge") l)
    as [|b rest] eqn:EF.
  - assert (Hv : traitValue "Badge" (Some l) = None)
      by (unfold traitValue; now rewrite Hb).
    rewrite Hv. cbn [badgeBonus].
    exists []. split; [reflexivity|]. intros t t1 H.
    unfold computeExpectedYield, bind at 1. rewrite H.
    fold (attributesOf nft). rewrite EA.
    cbv beta iota zeta delta [first filterTrait].
    rewrite EF, !first_filter. cbv beta iota zeta. unfold bind, ret.
    rewrite Hskin, Hvig, app_nil_r. do 2 f_equal. lia.
  - assert (Hv : traitValue "Badge" (Some l) = Some (value b))
      by (unfold traitValue; now rewrite Hb).
    rewrite Hv. cbn [badgeBonus]. rewrite tierBonus_cases.
    destruct (String.eqb (value b) "Bronze") eqn:B1;
      [|destruct (String.eqb (value b) "Silver") eqn:B2;
        [|destruct (String.eqb (value b) "Gold") eqn:B3;
          [|destruct (String.eqb (value b) "Platinum") eqn:B4;
            [|destruct (String.eqb (value b) "Diamond") eqn:B5]]]].
    1-5: exists []; split; [reflexivity|]; intros t t1 H;
         unfold computeExpectedYield, bind at 1; rewrite H;
         fold (attributesOf nft); rewrite EA;
         cbv beta iota zeta delta [first filterTrait];
         rewrite EF, !first_filter; cbv beta iota zeta;
         rewrite ?B1, ?B2, ?B3, ?B4, ?B5; unfold bind, ret;
         rewrite Hskin, Hvig, app_nil_r; do 2 f_equal; lia.
    exists [Log (LBadgeUnrecognised (value b))]. split; [reflexivity|].
    intros t t1 H. unfold computeExpectedYield, bind at 1. rewrite H.
    fold (attributesOf nft). rewrite EA.
    cbv beta iota zeta delta [first filterTrait].
    rewrite EF, !first_filter; cbv beta iota zeta.
    rewrite B1, B2, B3, B4, B5. unfold bind, ret, console_log, emit.
    rewrite Hskin, Hvig. do 2 f_equal; lia.
Qed.

Lemma computeExpectedYield_run (env : Env) (mint : PublicKey)
    (connection : Connection) :
  exists d, forallb quiet d = true
    /\ forall t, computeExpectedYield env mint connection t
                 = (Normal (expectedYieldOf env mint connection), t ++ d).
Proof.
  destruct (getNFTMetadata_run env (toString mint) connection) as (r & d & Hq & _ & Hr).
  destruct (computeExpectedYield_bind env mint connection r) as (d0 & Hq0 & H0).
  exists (d ++ d0). split.
  - now rewrite forallb_app, Hq, Hq0.
  - intros t. unfold expectedYieldOf.
    rewrite (H0 [] _ (Hr [])), (H0 t _ (Hr t)). simpl. now rewrite app_assoc.
Qed.

(** ** Observing traces *)

Arguments computeExpectedYield : simpl never.
Arguments headersSent : simpl never.
Arguments responses : simpl never.
Arguments submitted : simpl never.

Lemma headersSent_app (a b : Trace) :
  headersSent (a ++ b) = headersSent a || headersSent b.
Proof. apply existsb_app. Qed.

Lemma responses_app (a b : Trace) : responses (a ++ b) = responses a ++ responses b.
Proof. apply flat_map_app. Qed.

Lemma submitted_app (a b : Trace) : submitted (a ++ b) = submitted a ++ submitted b.
Proof. apply flat_map_app. Qed.

Lemma headersSent_cons (e : Event) (t : Trace) :
  headersSent (e :: t) = negb (quiet e || match e with Execute _ _ _ => true | _ => false end)
                         || headersSent t.
Proof. destruct e; reflexivity. Qed.

Lemma responses_cons (e : Event) (t : Trace) :
  responses (e :: t)
  = match e with Respond s b => [(s, b)] | _ => [] end ++ responses t.
Proof. reflexivity. Qed.

Lemma submitted_cons (e : Event) (t : Trace) :
  submitted (e :: t)
  = match e with Execute tx _ _ => [tx] | _ => [] end ++ submitted t.
Proof. reflexivity. Qed.

Lemma quiet_silent (d : Trace) :
  forallb quiet d = true ->
  headersSent d = false /\ responses d = [] /\ submitted d = [].
Proof.
  induction d as [|e d IH]; [now repeat split|].
  cbn [forallb]. intros H. apply andb_prop in H. destruct H as (He & Hd).
  destruct (IH Hd) as (H1 & H2 & H3).
  rewrite headersSent_cons, responses_cons, submitted_cons, H1, H2, H3.
  destruct e; try discriminate; now repeat split.
Qed.

(** Evaluate the observations of a trace made of known events and of quiet
    stretches. *)
Ltac observe :=
  repeat (progress
    (rewrite ?headersSent_app, ?responses_app, ?submitted_app,
       ?headersSent_cons, ?responses_cons, ?submitted_cons));
  repeat match goal with
         | H : headersSent ?d = _ |- context [headersSent ?d] => rewrite H
         | H : responses ?d = _ |- context [responses ?d] => rewrite H
         | H : submitted ?d = _ |- context [submitted ?d] => rewrite H
         end;
  change (headersSent []) with false;
  change (responses []) with (@nil (Z * ResponseBody));
  change (submitted []) with (@nil Transaction);
  cbn [quiet negb orb andb app].

(** A listed event is not in a trace whose events are all known. *)
Ltac absent_event :=
  let H := fresh "H" in
  intros H; cbn [In] in H; decompose [or] H;
  first [discriminate | contradiction].

(** Symbolic run of the handler: unfold the monad, use the oracle answers
    of the context and the run of [computeExpectedYield]. *)
Ltac run_handler Hrun :=
  unfold handler;
  repeat (unfold_monad;
          first [ rewrite Hrun
                | progress observe
                | match goal with
                  | H : ?o = _ |- context [?o] => rewrite H
                  end ]);
  unfold_monad.

(** The next test the run of the handler is waiting for. *)
Ltac destruct_stuck :=
  match goal with
  | |- context [match ?x with _ => _ end] =>
      lazymatch x with
      | context [match _ with _ => _ end] => fail
      | context [computeExpectedYield] => fail
      | context [headersSent] => fail
      | _ => let E := fresh "E" in destruct x eqn:E
      end
  end.

(** Follow every path of the handler: use the answers of the context, run
    [computeExpectedYield] by its lemma, and split on every other test. *)
Ltac explore :=
  unfold handler;
  repeat (unfold_monad;
          first [ match goal with
                  | H : ?o = _ |- context [?o] => rewrite H
                  end
                | match goal with
                  | |- context [computeExpectedYield ?e ?m ?c _] =>
                      let d := fresh "d" in
                      let Hq := fresh "Hq" in
                      let Hrun := fresh "Hrun" in
                      destruct (computeExpectedYield_run e m c) as (d & Hq & Hrun);
                      let Q1 := fresh "Q" in
                      let Q2 := fresh "Q" in
                      let Q3 := fresh "Q" in
                      destruct (quiet_silent d Hq) as (Q1 & Q2 & Q3);
                      rewrite Hrun
                  end
                | progress observe
                | destruct_stuck ]);
  unfold_monad.

Section Resolved.

(** A request whose body carries three well-formed addresses, served with a
    working endpoint and a loadable administrative key. *)
Variables (env : Env) (req : Request) (b : Body).
Variables (mint userPubkey stakePoolKey endpoint secret : string).
Variables (keypair : Keypair) (rewardDistributorId : PublicKey).

Hypothesis Hbody : body req = Some b.
Hypothesis Hmint : body_mint b = Some mint.
Hypothesis Huser : body_userPubkey b = Some userPubkey.
Hypothesis Hpool : body_stakePoolKey b = Some stakePoolKey.
Hypothesis Vmint : validAddress env mint = true.
Hypothesis Vuser : validAddress env userPubkey = true.
Hypothesis Vpool : validAddress env stakePoolKey = true.
Hypothesis Hendpoint : MAINNET_PRIMARY env = Some endpoint.
Hypothesis Vendpoint : validEndpoint env endpoint = true.
Hypothesis Hsecret : STAKING_ADMIN_PRIVATE_KEY env = Some secret.
Hypothesis Hkeypair : ext_secretKey env secret = Some keypair.
Hypothesis HrdId :
  ext_findRewardDistributorId env (PK stakePoolKey) = Some rewardDistributorId.

Lemma distributor_absent_run :
  ext_getRewardDistributor env (Conn endpoint) rewardDistributorId = None ->
  exists c t,
    handler env req [] = (c, t)
    /\ submitted t = []
    /\ ~ In (Log LAddingInit) t
    /\ (forall p, ~ In (Call (CwithUpdateRewardEntry p)) t)
    /\ (method req = "POST" ->
        c = Normal tt /\ responses t = [(500, notCreated)]).
Proof.
  intros Hrd.
  destruct (String.eqb (method req) "POST") eqn:EM;
    [|destruct (headersSentThrows env) eqn:ER];
    (do 2 eexists; split; [run_handler Hrd; reflexivity|];
     split; [reflexivity|];
     split; [absent_event|];
     split; [intros p; absent_event|];
     intros E;
     first [ apply String.eqb_neq in EM; contradiction
           | split; reflexivity ]).
Qed.

(** From here on the reward distributor of the pool exists, and the stake
    entry and the reward entry addresses are derived. *)
Variables (rewardDistributor : RewardDistributor).
Variables (stakeEntryId rewardEntryId : PublicKey).

Hypothesis Hrd :
  ext_getRewardDistributor env (Conn endpoint) rewardDistributorId
  = Some rewardDistributor.
Hypothesis Hse :
  ext_findStakeEntryIdFromMint env (Conn endpoint) (PK userPubkey)
    (PK stakePoolKey) (PK mint) = Some stakeEntryId.
Hypothesis Hre :
  ext_findRewardEntryId env (rd_pubkey rewardDistributor) stakeEntryId
  = Some rewardEntryId.

Lemma already_set_run (entry : RewardEntry) :
  ext_getRewardEntry env (Conn endpoint) rewardEntryId = Some entry ->
  Z.abs (multiplier entry) < two53 ->
  (descaled (multiplier entry) (multiplierDecimals rewardDistributor)
   == inject_Z (expectedMultiplierOf env (PK mint) (Conn endpoint)
                  rewardDistributor))%Q ->
  exists c t,
    handler env req [] = (c, t)
    /\ submitted t = []
    /\ (method req = "POST" ->
        c = Normal tt
        /\ responses t
           = [(200, alreadySet (expectedYieldOf env (PK mint) (Conn endpoint)))]).
Proof.
  intros Hentry Hsafe Heq.
  apply Z.ltb_lt in Hsafe. apply Qeq_bool_iff in Heq.
  unfold descaled, expectedMultiplierOf in Heq.
  destruct (computeExpectedYield_run env (PK mint) (Conn endpoint))
    as (d & Hq & Hrun).
  destruct (quiet_silent d Hq) as (Q1 & Q2 & Q3).
  destruct (String.eqb (method req) "POST") eqn:EM;
    [|destruct (headersSentThrows env) eqn:ER];
    (do 2 eexists; split; [run_handler Hrun; reflexivity|];
     split; [now observe|];
     intros E;
     first [ apply String.eqb_neq in EM; contradiction
           | split; [reflexivity | now observe] ]).
Qed.

Lemma update_run (entry : option RewardEntry) :
  ext_getRewardEntry env (Conn endpoint) rewardEntryId = entry ->
  match entry with
  | None => True
  | Some e =>
      Z.abs (multiplier e) < two53
      /\ ~ (descaled (multiplier e) (multiplierDecimals rewardDistributor)
            == inject_Z (expectedMultiplierOf env (PK mint) (Conn endpoint)
                           rewardDistributor))%Q
  end ->
  expectedMultiplierOf env (PK mint) (Conn endpoint) rewardDistributor < two53 ->
  ext_updateRewardEntry env (Conn endpoint) (WalletOf keypair)
    (updateParams (PK stakePoolKey) rewardDistributor stakeEntryId
       (expectedMultiplierOf env (PK mint) (Conn endpoint) rewardDistributor))
  = true ->
  exists c t,
    handler env req [] = (c, t)
    /\ submitted t
       = [builtTransaction keypair (PK stakePoolKey) rewardDistributor
            stakeEntryId rewardEntryId
            (expectedMultiplierOf env (PK mint) (Conn endpoint) rewardDistributor)
            entry]
    /\ In (Log (LExpectedMultiplier
                  (expectedMultiplierOf env (PK mint) (Conn endpoint)
                     rewardDistributor))) t
    /\ (method req = "POST" ->
        ext_executeTransaction env (Conn endpoint) (WalletOf keypair)
          (builtTransaction keypair (PK stakePoolKey) rewardDistributor
             stakeEntryId rewardEntryId
             (expectedMultiplierOf env (PK mint) (Conn endpoint) rewardDistributor)
             entry)
          [keypair] = true ->
        c = Normal tt
        /\ responses t
           = [(200, updated (expectedYieldOf env (PK mint) (Conn endpoint)))]).
Proof.
  intros Hentry Hcond Hbn Hupd.
  apply Z.ltb_lt in Hbn.
  unfold builtTransaction, updateParams, initParams, descaled,
    expectedMultiplierOf in *.
  destruct (computeExpectedYield_run env (PK mint) (Conn endpoint))
    as (d & Hq & Hrun).
  destruct (quiet_silent d Hq) as (Q1 & Q2 & Q3).
  assert (Hin : forall (pre post : Trace) (e : Event),
             In e (pre ++ d ++ e :: post)).
  { intros. rewrite !in_app_iff. right. right. now left. }
  destruct entry as [e|].
  - destruct Hcond as (Hsafe & Hneq). apply Z.ltb_lt in Hsafe.
    destruct (Qeq_bool
                (inject_Z (multiplier e) /
                 inject_Z (pow10 (multiplierDecimals rewardDistributor)))
                (inject_Z (expectedYieldOf env (PK mint) (Conn endpoint) *
                           pow10 (multiplierDecimals rewardDistributor))))
      eqn:EQ; [apply Qeq_bool_iff in EQ; contradiction|].
    cbn [app].
    destruct (ext_executeTransaction env (Conn endpoint) (WalletOf keypair)
                [UpdateRewardEntryIx (WalletOf keypair)
                   {| up_stakePoolId := PK stakePoolKey;
                      up_rewardDistributorId := rd_pubkey rewardDistributor;
                      up_stakeEntryId := stakeEntryId;
                      up_multiplier :=
                        expectedYieldOf env (PK mint) (Conn endpoint) *
                        pow10 (multiplierDecimals rewardDistributor) |}]
                [keypair]) eqn:EX;
      (destruct (String.eqb (method req) "POST") eqn:EM;
       [|destruct (headersSentThrows env) eqn:ER]);
      (do 2 eexists; split; [run_handler Hrun; reflexivity|];
       split; [now observe|]; split;
       [ rewrite <- ?app_assoc; cbn [app];
         first [ apply (Hin [_; _; _]) | apply (Hin [_; _; _; _]) ]
       | intros E1 E2;
         first [ discriminate
               | apply String.eqb_neq in EM; contradiction
               | split; [reflexivity | now observe] ] ]).
  - cbn [app].
    destruct (ext_executeTransaction env (Conn endpoint) (WalletOf keypair)
                [InitRewardEntryIx (WalletOf keypair)
                   {| ip_stakeEntryId := stakeEntryId;
                      ip_rewardDistributor := rd_pubkey rewardDistributor;
                      ip_rewardEntryId := rewardEntryId |};
                 UpdateRewardEntryIx (WalletOf keypair)
                   {| up_stakePoolId := PK stakePoolKey;
                      up_rewardDistributorId := rd_pubkey rewardDistributor;
                      up_stakeEntryId := stakeEntryId;
                      up_multiplier :=
                        expectedYieldOf env (PK mint) (Conn endpoint) *
                        pow10 (multiplierDecimals rewardDistributor) |}]
                [keypair]) eqn:EX;
      (destruct (String.eqb (method req) "POST") eqn:EM;
       [|destruct (headersSentThrows env) eqn:ER]);
      (do 2 eexists; split; [run_handler Hrun; reflexivity|];
       split; [now observe|]; split;
       [ rewrite <- ?app_assoc; cbn [app];
         first [ apply (Hin [_; _; _]) | apply (Hin [_; _; _; _]) ]
       | intros E1 E2;
         first [ discriminate
               | apply String.eqb_neq in EM; contradiction
               | split; [reflexivity | now observe] ] ]).
Qed.

Lemma already_set_submits_nothing (entry : RewardEntry) :
  ext_getRewardEntry env (Conn endpoint) rewardEntryId = Some entry ->
  (descaled (multiplier entry) (multiplierDecimals rewardDistributor)
   == inject_Z (expectedMultiplierOf env (PK mint) (Conn endpoint)
                  rewardDistributor))%Q ->
  exists c t, handler env req [] = (c, t) /\ submitted t = [].
Proof.
  intros Hentry Heq. apply Qeq_bool_iff in Heq.
  unfold descaled, expectedMultiplierOf in Heq.
  pose (P := fun r : Completion unit * Trace => submitted (snd r) = []).
  assert (HP : P (handler env req [])).
  { explore.
    all: subst P; cbv beta; cbn [snd]; observe; reflexivity. }
  exists (fst (handler env req [])), (snd (handler env req [])).
  split; [apply surjective_pairing | exact HP].
Qed.

End Resolved.

(** ** More lemmas on the rule *)

Lemma find_first (p : Attribute -> bool) (pre post : list Attribute) (b : Attribute) :
  forallb (fun a => negb (p a)) pre = true ->
  p b = true ->
  find p (pre ++ b :: post) = Some b.
Proof.
  intros Hpre Hb. induction pre as [|a pre IH]; cbn [app find].
  - now rewrite Hb.
  - cbn [forallb] in Hpre. apply andb_prop in Hpre. destruct Hpre as (Ha & Hpre).
    apply negb_true_iff in Ha. rewrite Ha. auto.
Qed.

Lemma find_append (p : Attribute -> bool) (l1 l2 : list Attribute) :
  find p (l1 ++ l2)
  = match find p l1 with
    | Some a => Some a
    | None => find p l2
    end.
Proof.
  induction l1 as [|a l1 IH]; [reflexivity|].
  cbn [app find]. destruct (p a); [reflexivity | exact IH].
Qed.

Lemma find_filter (p q : Attribute -> bool) (l : list Attribute) :
  (forall a, p a = true -> q a = true) ->
  find p (filter q l) = find p l.
Proof.
  intros Hpq. induction l as [|a l IH]; [reflexivity|].
  cbn [filter find]. destruct (q a) eqn:Q; cbn [find].
  - now rewrite IH.
  - destruct (p a) eqn:P; [|assumption].
    apply Hpq in P. congruence.
Qed.

Lemma skinBonus_values (v : option string) : skinBonus v = 0 \/ skinBonus v = 2.
Proof.
  destruct v as [s|]; cbn [skinBonus]; [|now left].
  destruct (in_dec string_dec s legendarySkins); [now right | now left].
Qed.

Lemma vignetteBonus_values (v : option string) :
  vignetteBonus v = 0 \/ vignetteBonus v = 5.
Proof.
  destruct v as [s|]; cbn [vignetteBonus]; [|now left].
  destruct (string_dec s "Alpaca"); [now right | now left].
Qed.

Lemma badgeBonus_values (v : option string) :
  In (badgeBonus v) [0; 5; 7; 9; 11; 15].
Proof.
  destruct v as [s|]; cbn [badgeBonus]; [apply tierBonus_values | now left].
Qed.

Lemma yieldRule_range (attrs : option (list Attribute)) :
  2 <= yieldRule attrs <= 24.
Proof.
  unfold yieldRule.
  destruct (skinBonus_values (traitValue "Skin" attrs)) as [-> | ->];
    destruct (vignetteBonus_values (traitValue "Vignette" attrs)) as [-> | ->];
    pose proof (badgeBonus_values (traitValue "Badge" attrs)) as H;
    cbn [In] in H; decompose [or] H; try contradiction; lia.
Qed.

Lemma rounded_product (a b : Z) : rounded (inject_Z a * inject_Z b) = a * b.
Proof.
  unfold rounded.
  assert (E : (inject_Z a * inject_Z b + (1 # 2) == (2 * (a * b) + 1) # 2)%Q).
  { rewrite <- inject_Z_mult. generalize (a * b). intros n.
    unfold Qeq, Qplus, inject_Z. cbn [Qnum Qden Pos.mul]. lia. }
  rewrite E. unfold Qfloor.
  rewrite Z.add_comm, Z.mul_comm, Z.div_add by lia. reflexivity.
Qed.

(** What the sample environment serves. *)
Lemma sample_metadata (d : nat) (e : option Z) (attrs : option (list Attribute))
    (r : bool) :
  exists nft t1,
    getNFTMetadata (sampleEnv d e attrs r) (toString sampleMint) sampleConnection []
    = (Normal (Some nft), t1)
    /\ attributes (externalMetadata nft) = attrs.
Proof. do 2 eexists. split; reflexivity. Qed.

Lemma sample_yield (d : nat) (e : option Z) (attrs : option (list Attribute))
    (r : bool) :
  expectedYieldOf (sampleEnv d e attrs r) sampleMint sampleConnection
  = yieldRule attrs.
Proof.
  destruct (sample_metadata d e attrs r) as (nft & t1 & H & Ha).
  destruct (computeExpectedYield_bind (sampleEnv d e attrs r) sampleMint
              sampleConnection (Some nft)) as (d0 & _ & H0).
  unfold expectedYieldOf. rewrite (H0 [] t1 H). cbn [fst attributesOf].
  now rewrite Ha.
Qed.

(** ** The yield rule *)

(** C1: whatever the metadata fetch returns, [computeExpectedYield] returns
    2, plus 2 when the value of the first "Skin" attribute is one of the
    seven legendary skins, plus the tier bonus of the first "Badge"
    attribute (Bronze 5, Silver 7, Gold 9, Platinum 11, Diamond 15, anything
    else 0), plus 5 when the value of the first "Vignette" attribute is
    "Alpaca".  Every attribute list can be served; absent metadata and the
    empty list give 2, and a Gold skin with a Platinum badge gives 15. *)
Theorem computeExpectedYield_follows_rule :
  (forall env mint connection t,
     exists nft t1 t2,
       getNFTMetadata env (toString mint) connection t = (Normal nft, t1)
       /\ computeExpectedYield env mint connection t
          = (Normal (2 + skinBonus (traitValue "Skin" (attributesOf nft))
                       + badgeBonus (traitValue "Badge" (attributesOf nft))
                       + vignetteBonus (traitValue "Vignette" (attributesOf nft))),
             t2))
  /\ (forall attrs d e r,
        fst (computeExpectedYield (sampleEnv d e attrs r) sampleMint
               sampleConnection [])
        = Normal (yieldRule attrs))
  /\ (forall d e attrs r,
        fst (computeExpectedYield (hostDown (sampleEnv d e attrs r)) sampleMint
               sampleConnection [])
        = Normal 2)
  /\ yieldRule None = 2
  /\ yieldRule (Some []) = 2
  /\ yieldRule (Some [attr "Skin" "Gold"; attr "Badge" "Platinum"]) = 15
  /\ List.length legendarySkins = 7%nat
  /\ map tierBonus ["Bronze"; "Silver"; "Gold"; "Platinum"; "Diamond"; "Wood"]
     = [5; 7; 9; 11; 15; 0].
Proof.
  split; [|split; [|split]].
  - intros env mint connection t.
    destruct (getNFTMetadata_run env (toString mint) connection)
      as (nft & d & _ & _ & Hr).
    destruct (computeExpectedYield_bind env mint connection nft) as (d' & _ & H).
    exists nft, (t ++ d), ((t ++ d) ++ d'). split; [apply Hr|].
    apply H, Hr.
  - intros attrs d e r.
    destruct (computeExpectedYield_run (sampleEnv d e attrs r) sampleMint
                sampleConnection) as (d0 & _ & H).
    now rewrite H, sample_yield.
  - intros d e attrs r.
    destruct (computeExpectedYield_bind (hostDown (sampleEnv d e attrs r))
                sampleMint sampleConnection None) as (d0 & _ & H).
    erewrite H by reflexivity. reflexivity.
  - repeat split; reflexivity.
Qed.

(** C5: when the attribute list holds a "Badge" attribute, exactly one tier
    bonus enters the yield, that of the first "Badge" attribute: the yield
    is 2 + skin bonus + tier of that badge + vignette bonus, badges further
    down the list change nothing, and a value that is none of Bronze,
    Silver, Gold, Platinum, Diamond adds 0. *)
Theorem first_badge_decides (env : Env) (mint : PublicKey)
    (connection : Connection) (t t1 : Trace) (nft : option NFT)
    (pre post : list Attribute) (b : Attribute) :
  getNFTMetadata env (toString mint) connection t = (Normal nft, t1) ->
  attributesOf nft = Some (pre ++ b :: post) ->
  forallb (fun a => negb (isBadge a)) pre = true ->
  isBadge b = true ->
  (exists t2,
     computeExpectedYield env mint connection t
     = (Normal (2 + skinBonus (traitValue "Skin" (attributesOf nft))
                  + tierBonus (value b)
                  + vignetteBonus (traitValue "Vignette" (attributesOf nft))),
        t2))
  /\ yieldRule (Some (pre ++ b :: post))
     = yieldRule (Some (pre ++ b :: filter (fun a => negb (isBadge a)) post))
  /\ In (tierBonus (value b)) [0; 5; 7; 9; 11; 15]
  /\ (~ In (value b) ["Bronze"; "Silver"; "Gold"; "Platinum"; "Diamond"] ->
      tierBonus (value b) = 0)
  /\ map tierBonus ["Bronze"; "Silver"; "Gold"; "Platinum"; "Diamond"]
     = [5; 7; 9; 11; 15].
Proof.
  intros Hfetch Hattrs Hpre Hb.
  assert (Hbadge : forall post', traitValue "Badge" (Some (pre ++ b :: post'))
                                 = Some (value b)).
  { intros post'. unfold traitValue.
    now rewrite (find_first (fun a => String.eqb (trait_type a) "Badge")
                   pre post' b Hpre Hb). }
  split; [|split; [|split; [|split]]].
  - destruct (computeExpectedYield_bind env mint connection nft) as (d & _ & H).
    exists (t1 ++ d). rewrite (H t t1 Hfetch). unfold yieldRule.
    now rewrite Hattrs, Hbadge.
  - assert (Hother : forall name, String.eqb name "Badge" = false ->
              traitValue name (Some (pre ++ b :: filter (fun a => negb (isBadge a)) post))
              = traitValue name (Some (pre ++ b :: post))).
    { intros name Hname. unfold traitValue. f_equal.
      rewrite !find_append.
      destruct (find (fun a => String.eqb (trait_type a) name) pre); [reflexivity|].
      cbn [find]. destruct (String.eqb (trait_type b) name); [reflexivity|].
      apply find_filter. intros a Ha. apply String.eqb_eq in Ha.
      unfold isBadge. rewrite Ha, Hname. reflexivity. }
    unfold yieldRule. rewrite !Hbadge, !Hother by reflexivity. reflexivity.
  - apply tierBonus_values.
  - intros Hv. apply tierBonus_unrecognised. exact Hv.
  - reflexivity.
Qed.

(** C10: for every metadata input, absent metadata included,
    [computeExpectedYield] returns an integer from 2 to 24: the base 2 plus
    a skin bonus of 0 or 2, a badge bonus among 0, 5, 7, 9, 11, 15 and a
    vignette bonus of 0 or 5; both bounds are reached. *)
Theorem computeExpectedYield_range :
  (forall env mint connection t,
     exists y t',
       computeExpectedYield env mint connection t = (Normal y, t')
       /\ 2 <= y <= 24
       /\ exists s b v,
            y = 2 + s + b + v
            /\ (s = 0 \/ s = 2)
            /\ In b [0; 5; 7; 9; 11; 15]
            /\ (v = 0 \/ v = 5))
  /\ yieldRule None = 2
  /\ yieldRule (Some [attr "Badge" "Diamond"; attr "Vignette" "Alpaca";
                      attr "Skin" "Lava"; attr "Badge" "Gold"]) = 24.
Proof.
  split; [|split; reflexivity].
  intros env mint connection t.
  destruct (getNFTMetadata_run env (toString mint) connection)
    as (nft & d & _ & _ & Hr).
  destruct (computeExpectedYield_bind env mint connection nft) as (d' & _ & H).
  exists (yieldRule (attributesOf nft)), ((t ++ d) ++ d').
  split; [apply H, Hr|]. split; [apply yieldRule_range|].
  exists (skinBonus (traitValue "Skin" (attributesOf nft))),
         (badgeBonus (traitValue "Badge" (attributesOf nft))),
         (vignetteBonus (traitValue "Vignette" (attributesOf nft))).
  split; [reflexivity|]. split; [apply skinBonus_values|].
  split; [apply badgeBonus_values | apply vignetteBonus_values].
Qed.

(** ** The handler *)

(** C8: when the reward distributor of the pool cannot be fetched, the
    request fails: nothing is submitted, no instruction is prepared, and
    (for a POST request) the only answer is status 500 with type "error"
    and the generic message. *)
Theorem missing_distributor_fails (env : Env) (req : Request) (b : Body)
    (mint userPubkey stakePoolKey endpoint secret : string)
    (keypair : Keypair) (rewardDistributorId : PublicKey) :
  body req = Some b ->
  body_mint b = Some mint ->
  body_userPubkey b = Some userPubkey ->
  body_stakePoolKey b = Some stakePoolKey ->
  validAddress env mint = true ->
  validAddress env userPubkey = true ->
  validAddress env stakePoolKey = true ->
  MAINNET_PRIMARY env = Some endpoint ->
  validEndpoint env endpoint = true ->
  STAKING_ADMIN_PRIVATE_KEY env = Some secret ->
  ext_secretKey env secret = Some keypair ->
  ext_findRewardDistributorId env (PK stakePoolKey) = Some rewardDistributorId ->
  ext_getRewardDistributor env (Conn endpoint) rewardDistributorId = None ->
  exists c t,
    handler env req [] = (c, t)
    /\ submitted t = []
    /\ ~ In (Log LAddingInit) t
    /\ (forall p, ~ In (Call (CwithUpdateRewardEntry p)) t)
    /\ (method req = "POST" ->
        c = Normal tt
        /\ exists answer,
             responses t = [(500, answer)]
             /\ type answer = Some error
             /\ yieldRate answer = None
             /\ message answer = "Yield refresh transaction could not be created").
Proof.
  intros.
  destruct distributor_absent_run
    with (env := env) (req := req) (b := b) (mint := mint)
         (userPubkey := userPubkey) (stakePoolKey := stakePoolKey)
         (endpoint := endpoint) (secret := secret) (keypair := keypair)
         (rewardDistributorId := rewardDistributorId)
    as (c & t & Hrun & Hsub & Hinit & Hupd & Hpost); try assumption.
  exists c, t. repeat (split; [assumption|]).
  intros Hm. destruct (Hpost Hm) as (Hc & Hr). split; [assumption|].
  exists notCreated. now repeat split.
Qed.

(** C2, amended: when the reward entry exists and its stored multiplier,
    descaled by the distributor's decimal precision, equals the expected
    multiplier, the handler submits no transaction; and when the stored
    multiplier is below 2^53, so that it converts to a number, the only
    answer (to a POST request) is status 200 with type "ignored" and the
    computed yield rate. *)
Theorem already_set_is_ignored (env : Env) (req : Request) (b : Body)
    (mint userPubkey stakePoolKey endpoint secret : string)
    (keypair : Keypair) (rewardDistributorId : PublicKey)
    (rewardDistributor : RewardDistributor)
    (stakeEntryId rewardEntryId : PublicKey) (entry : RewardEntry) :
  body req = Some b ->
  body_mint b = Some mint ->
  body_userPubkey b = Some userPubkey ->
  body_stakePoolKey b = Some stakePoolKey ->
  validAddress env mint = true ->
  validAddress env userPubkey = true ->
  validAddress env stakePoolKey = true ->
  MAINNET_PRIMARY env = Some endpoint ->
  validEndpoint env endpoint = true ->
  STAKING_ADMIN_PRIVATE_KEY env = Some secret ->
  ext_secretKey env secret = Some keypair ->
  ext_findRewardDistributorId env (PK stakePoolKey) = Some rewardDistributorId ->
  ext_getRewardDistributor env (Conn endpoint) rewardDistributorId
  = Some rewardDistributor ->
  ext_findStakeEntryIdFromMint env (Conn endpoint) (PK userPubkey)
    (PK stakePoolKey) (PK mint) = Some stakeEntryId ->
  ext_findRewardEntryId env (rd_pubkey rewardDistributor) stakeEntryId
  = Some rewardEntryId ->
  ext_getRewardEntry env (Conn endpoint) rewardEntryId = Some entry ->
  (descaled (multiplier entry) (multiplierDecimals rewardDistributor)
   == inject_Z (expectedYieldOf env (PK mint) (Conn endpoint)
                * 10 ^ Z.of_nat (multiplierDecimals rewardDistributor)))%Q ->
  exists c t,
    handler env req [] = (c, t)
    /\ submitted t = []
    /\ (Z.abs (multiplier entry) < two53 ->
        method req = "POST" ->
        c = Normal tt
        /\ exists answer,
             responses t = [(200, answer)]
             /\ type answer = Some ignored
             /\ yieldRate answer
                = Some (expectedYieldOf env (PK mint) (Conn endpoint))).
Proof.
  intros.
  destruct already_set_submits_nothing
    with (env := env) (req := req) (b := b) (mint := mint)
         (userPubkey := userPubkey) (stakePoolKey := stakePoolKey)
         (endpoint := endpoint) (secret := secret) (keypair := keypair)
         (rewardDistributorId := rewardDistributorId)
         (rewardDistributor := rewardDistributor)
         (stakeEntryId := stakeEntryId) (rewardEntryId := rewardEntryId)
         (entry := entry)
    as (c & t & Hrun & Hsub); try assumption.
  exists c, t. repeat (split; [assumption|]).
  intros Hsafe Hm.
  destruct already_set_run
    with (env := env) (req := req) (b := b) (mint := mint)
         (userPubkey := userPubkey) (stakePoolKey := stakePoolKey)
         (endpoint := endpoint) (secret := secret) (keypair := keypair)
         (rewardDistributorId := rewardDistributorId)
         (rewardDistributor := rewardDistributor)
         (stakeEntryId := stakeEntryId) (rewardEntryId := rewardEntryId)
         (entry := entry)
    as (c' & t' & Hrun' & _ & Hpost); try assumption.
  rewrite Hrun in Hrun'. injection Hrun' as <- <-.
  destruct (Hpost Hm) as (Hc & Hr). split; [assumption|].
  exists (alreadySet (expectedYieldOf env (PK mint) (Conn endpoint))).
  now repeat split.
Qed.

(** C3, amended: the expected multiplier is yield × 10^multiplierDecimals,
    and when it is below 2^53, the update instruction can be built, and
    either there is no reward entry yet or the stored multiplier is below
    2^53 and differs from it in the handler's comparison (the stored value
    descaled by 10^decimals is not the expected multiplier), the handler
    submits one transaction whose update instruction carries exactly that
    multiplier, which is round(yield × 10^decimals). *)
Theorem update_carries_expected_multiplier (env : Env) (req : Request) (b : Body)
    (mint userPubkey stakePoolKey endpoint secret : string)
    (keypair : Keypair) (rewardDistributorId : PublicKey)
    (rewardDistributor : RewardDistributor)
    (stakeEntryId rewardEntryId : PublicKey) (entry : option RewardEntry) :
  body req = Some b ->
  body_mint b = Some mint ->
  body_userPubkey b = Some userPubkey ->
  body_stakePoolKey b = Some stakePoolKey ->
  validAddress env mint = true ->
  validAddress env userPubkey = true ->
  validAddress env stakePoolKey = true ->
  MAINNET_PRIMARY env = Some endpoint ->
  validEndpoint env endpoint = true ->
  STAKING_ADMIN_PRIVATE_KEY env = Some secret ->
  ext_secretKey env secret = Some keypair ->
  ext_findRewardDistributorId env (PK stakePoolKey) = Some rewardDistributorId ->
  ext_getRewardDistributor env (Conn endpoint) rewardDistributorId
  = Some rewardDistributor ->
  ext_findStakeEntryIdFromMint env (Conn endpoint) (PK userPubkey)
    (PK stakePoolKey) (PK mint) = Some stakeEntryId ->
  ext_findRewardEntryId env (rd_pubkey rewardDistributor) stakeEntryId
  = Some rewardEntryId ->
  ext_getRewardEntry env (Conn endpoint) rewardEntryId = entry ->
  match entry with
  | None => True
  | Some e =>
      Z.abs (multiplier e) < two53
      /\ ~ (descaled (multiplier e) (multiplierDecimals rewardDistributor)
            == inject_Z (expectedYieldOf env (PK mint) (Conn endpoint)
                         * 10 ^ Z.of_nat (multiplierDecimals rewardDistributor)))%Q
  end ->
  expectedYieldOf env (PK mint) (Conn endpoint)
  * 10 ^ Z.of_nat (multiplierDecimals rewardDistributor) < two53 ->
  ext_updateRewardEntry env (Conn endpoint) (WalletOf keypair)
    (updateParams (PK stakePoolKey) rewardDistributor stakeEntryId
       (expectedYieldOf env (PK mint) (Conn endpoint)
        * 10 ^ Z.of_nat (multiplierDecimals rewardDistributor)))
  = true ->
  exists c t tx before p,
    handler env req [] = (c, t)
    /\ In (Log (LExpectedMultiplier
                  (expectedYieldOf env (PK mint) (Conn endpoint)
                   * 10 ^ Z.of_nat (multiplierDecimals rewardDistributor)))) t
    /\ submitted t = [tx]
    /\ tx = before ++ [UpdateRewardEntryIx (WalletOf keypair) p]
    /\ up_multiplier p
       = expectedYieldOf env (PK mint) (Conn endpoint)
         * 10 ^ Z.of_nat (multiplierDecimals rewardDistributor)
    /\ up_multiplier p
       = rounded (inject_Z (expectedYieldOf env (PK mint) (Conn endpoint))
                  * inject_Z (10 ^ Z.of_nat (multiplierDecimals rewardDistributor))).
Proof.
  intros.
  destruct update_run
    with (env := env) (req := req) (b := b) (mint := mint)
         (userPubkey := userPubkey) (stakePoolKey := stakePoolKey)
         (endpoint := endpoint) (secret := secret) (keypair := keypair)
         (rewardDistributorId := rewardDistributorId)
         (rewardDistributor := rewardDistributor)
         (stakeEntryId := stakeEntryId) (rewardEntryId := rewardEntryId)
         (entry := entry)
    as (c & t & Hrun & Hsub & Hlog & _); try assumption.
  exists c, t. do 3 eexists.
  split; [exact Hrun|]. split; [exact Hlog|]. split; [exact Hsub|].
  split; [reflexivity|]. split; [reflexivity|].
  cbn [updateParams up_multiplier]. now rewrite rounded_product.
Qed.

(** C6: when no reward entry exists, the transaction the handler submits
    holds an initialisation instruction for the reward entry followed by
    the update instruction, in this order and nothing else. *)
Theorem init_precedes_update (env : Env) (req : Request) (b : Body)
    (mint userPubkey stakePoolKey endpoint secret : string)
    (keypair : Keypair) (rewardDistributorId : PublicKey)
    (rewardDistributor : RewardDistributor)
    (stakeEntryId rewardEntryId : PublicKey) :
  body req = Some b ->
  body_mint b = Some mint ->
  body_userPubkey b = Some userPubkey ->
  body_stakePoolKey b = Some stakePoolKey ->
  validAddress env mint = true ->
  validAddress env userPubkey = true ->
  validAddress env stakePoolKey = true ->
  MAINNET_PRIMARY env = Some endpoint ->
  validEndpoint env endpoint = true ->
  STAKING_ADMIN_PRIVATE_KEY env = Some secret ->
  ext_secretKey env secret = Some keypair ->
  ext_findRewardDistributorId env (PK stakePoolKey) = Some rewardDistributorId ->
  ext_getRewardDistributor env (Conn endpoint) rewardDistributorId
  = Some rewardDistributor ->
  ext_findStakeEntryIdFromMint env (Conn endpoint) (PK userPubkey)
    (PK stakePoolKey) (PK mint) = Some stakeEntryId ->
  ext_findRewardEntryId env (rd_pubkey rewardDistributor) stakeEntryId
  = Some rewardEntryId ->
  ext_getRewardEntry env (Conn endpoint) rewardEntryId = None ->
  expectedMultiplierOf env (PK mint) (Conn endpoint) rewardDistributor < two53 ->
  ext_updateRewardEntry env (Conn endpoint) (WalletOf keypair)
    (updateParams (PK stakePoolKey) rewardDistributor stakeEntryId
       (expectedMultiplierOf env (PK mint) (Conn endpoint) rewardDistributor))
  = true ->
  exists c t,
    handler env req [] = (c, t)
    /\ submitted t
       = [[InitRewardEntryIx (WalletOf keypair)
             {| ip_stakeEntryId := stakeEntryId;
                ip_rewardDistributor := rd_pubkey rewardDistributor;
                ip_rewardEntryId := rewardEntryId |};
           UpdateRewardEntryIx (WalletOf keypair)
             (updateParams (PK stakePoolKey) rewardDistributor stakeEntryId
                (expectedMultiplierOf env (PK mint) (Conn endpoint)
                   rewardDistributor))]].
Proof.
  intros.
  destruct update_run
    with (env := env) (req := req) (b := b) (mint := mint)
         (userPubkey := userPubkey) (stakePoolKey := stakePoolKey)
         (endpoint := endpoint) (secret := secret) (keypair := keypair)
         (rewardDistributorId := rewardDistributorId)
         (rewardDistributor := rewardDistributor)
         (stakeEntryId := stakeEntryId) (rewardEntryId := rewardEntryId)
         (entry := @None RewardEntry)
    as (c & t & Hrun & Hsub & _); try assumption; [exact I|].
  exists c, t. split; [exact Hrun | exact Hsub].
Qed.

(** C4 (the code does not do this): a GET request with a well-formed body.
    The handler answers 405 and then goes on: it logs the body, resolves
    the reward distributor and submits a transaction, whether or not the
    response object accepts a second answer. *)
Theorem non_post_is_still_processed :
  forall resend : bool,
    exists c t later,
      handler (sampleEnv 0 None goldPlatinum resend) sampleGet [] = (c, t)
      /\ responses t = (405, onlyPost) :: later
      /\ In (Log (LBody (Some sampleBody))) t
      /\ In (Call (CgetRewardDistributor sampleDistributorId)) t
      /\ submitted t
         = [builtTransaction sampleAdmin (PK poolAddress) (sampleDistributor 0)
              sampleStakeEntry sampleRewardEntry 15 None].
Proof.
  intros [|]; do 3 eexists;
    (split; [vm_compute; reflexivity|]);
    (split; [vm_compute; reflexivity|]);
    (split; [vm_compute; tauto|]);
    (split; [vm_compute; tauto|]);
    vm_compute; reflexivity.
Qed.

(** C9 (the code does not do this): a POST request whose mint address is
    malformed, or missing.  The addresses are parsed before the [try]
    block, so the parse error leaves the handler uncaught: the handler
    throws and sends no answer at all, in particular no 500. *)
Theorem parse_error_escapes_handler :
  forall (d : nat) (e : option Z) (attrs : option (list Attribute)) (r : bool),
    handler (sampleEnv d e attrs r) (post malformedMint) []
    = (Throw InvalidPublicKey, [Log (LBody (Some malformedMint))])
    /\ handler (sampleEnv d e attrs r) (post missingMint) []
       = (Throw TypeError, [Log (LBody (Some missingMint))])
    /\ responses [Log (LBody (Some malformedMint))] = []
    /\ responses [Log (LBody (Some missingMint))] = [].
Proof.
  intros d e attrs r. repeat split; reflexivity.
Qed.

(** ** The theorems at the sample request *)

Lemma first_badge_decides_witness :
  exists t2,
    computeExpectedYield
      (sampleEnv 0 None
         (Some ([attr "Skin" "Gold"]
                ++ attr "Badge" "Platinum" :: [attr "Badge" "Diamond"])) true)
      sampleMint sampleConnection []
    = (Normal 15, t2).
Proof.
  refine (proj1 (first_badge_decides
                   (sampleEnv 0 None
                      (Some ([attr "Skin" "Gold"]
                             ++ attr "Badge" "Platinum" :: [attr "Badge" "Diamond"]))
                      true)
                   sampleMint sampleConnection []
                   [Call (CMetadataGetPDA mintAddress);
                    Call (CMetadataLoad (PK ("md:" ++ mintAddress)));
                    Call (CaxiosGet "https://meta.example/1.json")]
                   (Some (sampleNFT
                            (Some ([attr "Skin" "Gold"]
                                   ++ attr "Badge" "Platinum"
                                      :: [attr "Badge" "Diamond"]))))
                   [attr "Skin" "Gold"] [attr "Badge" "Diamond"]
                   (attr "Badge" "Platinum") _ _ _ _));
    reflexivity.
Defined.

Lemma missing_distributor_fails_witness :
  exists c t,
    handler (noDistributor (sampleEnv 0 None goldPlatinum true))
      (post sampleBody) [] = (c, t)
    /\ submitted t = []
    /\ c = Normal tt
    /\ responses t = [(500, notCreated)].
Proof.
  destruct (missing_distributor_fails
              (noDistributor (sampleEnv 0 None goldPlatinum true))
              (post sampleBody) sampleBody mintAddress userAddress poolAddress
              "https://rpc.example" "[1,2,3]" sampleAdmin sampleDistributorId
              eq_refl eq_refl eq_refl eq_refl eq_refl eq_refl eq_refl eq_refl
              eq_refl eq_refl eq_refl eq_refl eq_refl)
    as (c & t & H & Hs & _ & _ & Hpost).
  exists c, t. destruct (Hpost eq_refl) as (Hc & answer & Hr & _).
  repeat (split; [assumption|]).
  vm_compute in H. injection H as _ Ht. rewrite <- Ht. reflexivity.
Defined.

(** Decimal precision 2 and a yield of 15: the expected multiplier is 1500,
    and the stored multiplier whose descaled value equals it is 150000. *)
Lemma already_set_is_ignored_witness :
  exists c t,
    handler (sampleEnv 2 (Some 150000) goldPlatinum true) (post sampleBody) []
    = (c, t)
    /\ submitted t = []
    /\ c = Normal tt
    /\ exists answer,
         responses t = [(200, answer)]
         /\ type answer = Some ignored
         /\ yieldRate answer = Some 15.
Proof.
  destruct (already_set_is_ignored
              (sampleEnv 2 (Some 150000) goldPlatinum true)
              (post sampleBody) sampleBody mintAddress userAddress poolAddress
              "https://rpc.example" "[1,2,3]" sampleAdmin sampleDistributorId
              (sampleDistributor 2) sampleStakeEntry sampleRewardEntry
              {| re_pubkey := sampleRewardEntry; multiplier := 150000 |}
              eq_refl eq_refl eq_refl eq_refl eq_refl eq_refl eq_refl eq_refl
              eq_refl eq_refl eq_refl eq_refl eq_refl eq_refl eq_refl eq_refl
              eq_refl)
    as (c & t & H & Hs & Hpost).
  exists c, t. destruct (Hpost eq_refl eq_refl) as (Hc & answer & Hr & Ht & Hy).
  repeat (split; [assumption|]).
  exists answer. repeat (split; [assumption|]).
  rewrite Hy. reflexivity.
Defined.

(** Decimal precision 2 and a yield of 15 again, with the stored multiplier
    1500: its descaled value is 15, the comparison with 1500 fails and the
    update is submitted. *)
Lemma update_carries_expected_multiplier_witness :
  exists c t tx before p,
    handler (sampleEnv 2 (Some 1500) goldPlatinum true) (post sampleBody) []
    = (c, t)
    /\ submitted t = [tx]
    /\ tx = before ++ [UpdateRewardEntryIx (WalletOf sampleAdmin) p]
    /\ up_multiplier p = 1500.
Proof.
  assert (Hneq : ~ Qeq (descaled 1500 2)
                       (inject_Z (expectedYieldOf
                                    (sampleEnv 2 (Some 1500) goldPlatinum true)
                                    (PK mintAddress) (Conn "https://rpc.example")
                                  * 10 ^ Z.of_nat 2)))
    by (intros H; vm_compute in H; discriminate H).
  destruct (update_carries_expected_multiplier
              (sampleEnv 2 (Some 1500) goldPlatinum true)
              (post sampleBody) sampleBody mintAddress userAddress poolAddress
              "https://rpc.example" "[1,2,3]" sampleAdmin sampleDistributorId
              (sampleDistributor 2) sampleStakeEntry sampleRewardEntry
              (Some {| re_pubkey := sampleRewardEntry; multiplier := 1500 |})
              eq_refl eq_refl eq_refl eq_refl eq_refl eq_refl eq_refl eq_refl
              eq_refl eq_refl eq_refl eq_refl eq_refl eq_refl eq_refl eq_refl
              (conj eq_refl Hneq)
              eq_refl eq_refl)
    as (c & t & tx & before & p & H & _ & Hs & Htx & Hm & _).
  exists c, t, tx, before, p. repeat (split; [assumption|]).
  rewrite Hm. reflexivity.
Defined.

Lemma init_precedes_update_witness :
  exists c t,
    handler (sampleEnv 2 None goldPlatinum true) (post sampleBody) [] = (c, t)
    /\ submitted t
       = [[InitRewardEntryIx (WalletOf sampleAdmin)
             {| ip_stakeEntryId := sampleStakeEntry;
                ip_rewardDistributor := sampleDistributorId;
                ip_rewardEntryId := sampleRewardEntry |};
           UpdateRewardEntryIx (WalletOf sampleAdmin)
             {| up_stakePoolId := PK poolAddress;
                up_rewardDistributorId := sampleDistributorId;
                up_stakeEntryId := sampleStakeEntry;
                up_multiplier := 1500 |}]].
Proof.
  destruct (init_precedes_update
              (sampleEnv 2 None goldPlatinum true)
              (post sampleBody) sampleBody mintAddress userAddress poolAddress
              "https://rpc.example" "[1,2,3]" sampleAdmin sampleDistributorId
              (sampleDistributor 2) sampleStakeEntry sampleRewardEntry
              eq_refl eq_refl eq_refl eq_refl eq_refl eq_refl eq_refl eq_refl
              eq_refl eq_refl eq_refl eq_refl eq_refl eq_refl eq_refl eq_refl
              eq_refl eq_refl)
    as (c & t & H & Hs).
  exists c, t. split; [assumption|]. rewrite Hs. reflexivity.
Defined.

(** ** Every path of the handler *)

Arguments calls : simpl never.

Lemma calls_app (a b : Trace) : calls (a ++ b) = calls a ++ calls b.
Proof. apply flat_map_app. Qed.

Lemma calls_cons (e : Event) (t : Trace) :
  calls (e :: t) = match e with Call c => [c] | _ => [] end ++ calls t.
Proof. reflexivity. Qed.

Lemma expectedYieldOf_range (env : Env) (mint : PublicKey) (connection : Connection) :
  2 <= expectedYieldOf env mint connection <= 24.
Proof.
  destruct (getNFTMetadata_run env (toString mint) connection)
    as (r & d & _ & _ & Hr).
  destruct (computeExpectedYield_bind env mint connection r) as (d0 & _ & H0).
  unfold expectedYieldOf. rewrite (H0 [] _ (Hr [])). cbn [fst].
  apply yieldRule_range.
Qed.

(** X3: whatever the request and whatever the collaborators answer, the
    handler hands at most one transaction to [executeTransaction]; it is
    the update instruction alone or the initialisation followed by the
    update, and the multiplier of the update is a yield between 2 and 24
    times a power of ten. *)
Theorem submits_at_most_one_well_formed_transaction
    (env : Env) (req : Request) (c : Completion unit) (t : Trace) :
  handler env req [] = (c, t) ->
  submitted t = []
  \/ exists w p y d,
       (submitted t = [[UpdateRewardEntryIx w p]]
        \/ exists ip, submitted t = [[InitRewardEntryIx w ip; UpdateRewardEntryIx w p]])
       /\ 2 <= y <= 24
       /\ up_multiplier p = y * 10 ^ Z.of_nat d.
Proof.
  pose (P := fun r : Completion unit * Trace =>
    submitted (snd r) = []
    \/ exists w p y d,
         (submitted (snd r) = [[UpdateRewardEntryIx w p]]
          \/ exists ip,
               submitted (snd r) = [[InitRewardEntryIx w ip; UpdateRewardEntryIx w p]])
         /\ 2 <= y <= 24
         /\ up_multiplier p = y * 10 ^ Z.of_nat d).
  assert (HP : P (handler env req [])).
  { explore.
    all: subst P; cbv beta; cbn [snd]; observe.
    all: first
      [ left; reflexivity
      | right; do 4 eexists;
        split; [first [left; reflexivity | right; eexists; reflexivity]|];
        split; [apply expectedYieldOf_range|];
        reflexivity ]. }
  intros H. subst P. cbv beta in HP. rewrite H in HP. exact HP.
Qed.

(** X1: a POST request whose three addresses parse, served with a working
    endpoint, always ends normally with exactly one answer, whatever the
    collaborators do: 500 with the generic error, 200 "ok" or 200
    "ignored", the last two echoing a yield rate between 2 and 24. *)
Theorem accepted_request_gets_one_answer (env : Env) (req : Request) (b : Body)
    (mint userPubkey stakePoolKey endpoint : string) :
  method req = "POST" ->
  body req = Some b ->
  body_mint b = Some mint ->
  body_userPubkey b = Some userPubkey ->
  body_stakePoolKey b = Some stakePoolKey ->
  validAddress env mint = true ->
  validAddress env userPubkey = true ->
  validAddress env stakePoolKey = true ->
  MAINNET_PRIMARY env = Some endpoint ->
  validEndpoint env endpoint = true ->
  exists t s a y,
    handler env req [] = (Normal tt, t)
    /\ responses t = [(s, a)]
    /\ y = expectedYieldOf env (PK mint) (Conn endpoint)
    /\ 2 <= y <= 24
    /\ ((s = 500 /\ a = notCreated)
        \/ (s = 200 /\ a = updated y)
        \/ (s = 200 /\ a = alreadySet y)).
Proof.
  intros Hm Hbody Hmint Huser Hpool Vmint Vuser Vpool Hendpoint Vendpoint.
  apply String.eqb_eq in Hm.
  pose (P := fun r : Completion unit * Trace =>
    exists s a,
      fst r = Normal tt
      /\ responses (snd r) = [(s, a)]
      /\ ((s = 500 /\ a = notCreated)
          \/ (s = 200 /\ a = updated (expectedYieldOf env (PK mint) (Conn endpoint)))
          \/ (s = 200 /\ a = alreadySet (expectedYieldOf env (PK mint) (Conn endpoint))))).
  assert (HP : P (handler env req [])).
  { explore.
    all: subst P; cbv beta; cbn [fst snd]; observe.
    all: do 2 eexists; split; [reflexivity|]; split; [reflexivity|].
    all: first [ left; split; reflexivity
               | right; left; split; reflexivity
               | right; right; split; reflexivity ]. }
  subst P. cbv beta in HP. destruct HP as (s & a & Hc & Hr & Hcases).
  exists (snd (handler env req [])), s, a,
    (expectedYieldOf env (PK mint) (Conn endpoint)).
  split; [rewrite <- Hc; apply surjective_pairing|].
  split; [exact Hr|]. split; [reflexivity|].
  split; [apply expectedYieldOf_range | exact Hcases].
Qed.

(** X2: for every request and every behaviour of the collaborators, the
    type of an answer tells what happened on chain: "ok" is only sent after
    the one transaction was accepted by [executeTransaction]; "ignored" is
    only sent when nothing was submitted; "error" is sent when nothing was
    submitted or the one submission was rejected. *)
Theorem answer_reflects_submission (env : Env) (req : Request)
    (c : Completion unit) (t : Trace) (s : Z) (a : ResponseBody) :
  handler env req [] = (c, t) ->
  In (s, a) (responses t) ->
  (type a = Some ok ->
   exists endpoint secret keypair tx,
     MAINNET_PRIMARY env = Some endpoint
     /\ STAKING_ADMIN_PRIVATE_KEY env = Some secret
     /\ ext_secretKey env secret = Some keypair
     /\ submitted t = [tx]
     /\ ext_executeTransaction env (Conn endpoint) (WalletOf keypair) tx [keypair]
        = true)
  /\ (type a = Some ignored -> submitted t = [])
  /\ (type a = Some error ->
      submitted t = []
      \/ exists endpoint secret keypair tx,
           MAINNET_PRIMARY env = Some endpoint
           /\ STAKING_ADMIN_PRIVATE_KEY env = Some secret
           /\ ext_secretKey env secret = Some keypair
           /\ submitted t = [tx]
           /\ ext_executeTransaction env (Conn endpoint) (WalletOf keypair) tx
                [keypair] = false).
Proof.
  pose (P := fun r : Completion unit * Trace =>
    forall s a,
      In (s, a) (responses (snd r)) ->
      (type a = Some ok ->
       exists endpoint secret keypair tx,
         MAINNET_PRIMARY env = Some endpoint
         /\ STAKING_ADMIN_PRIVATE_KEY env = Some secret
         /\ ext_secretKey env secret = Some keypair
         /\ submitted (snd r) = [tx]
         /\ ext_executeTransaction env (Conn endpoint) (WalletOf keypair) tx
              [keypair] = true)
      /\ (type a = Some ignored -> submitted (snd r) = [])
      /\ (type a = Some error ->
          submitted (snd r) = []
          \/ exists endpoint secret keypair tx,
               MAINNET_PRIMARY env = Some endpoint
               /\ STAKING_ADMIN_PRIVATE_KEY env = Some secret
               /\ ext_secretKey env secret = Some keypair
               /\ submitted (snd r) = [tx]
               /\ ext_executeTransaction env (Conn endpoint) (WalletOf keypair) tx
                    [keypair] = false)).
  assert (HP : P (handler env req [])).
  { explore.
    all: subst P; cbv beta; cbn [fst snd]; observe.
    all: let Hin := fresh "Hin" in
         intros ? ? Hin; cbn [In] in Hin; try contradiction;
         decompose [or] Hin; clear Hin; try contradiction.
    all: match goal with
         | H : (_, _) = (_, _) |- _ => injection H as <- <-
         end.
    all: cbn [type onlyPost updated alreadySet notCreated].
    all: repeat split; intros Ht; try discriminate Ht.
    all: first
      [ reflexivity
      | left; reflexivity
      | do 4 eexists; repeat (split; [eassumption || reflexivity|]); eassumption
      | right; do 4 eexists;
        repeat (split; [eassumption || reflexivity|]); eassumption ]. }
  intros H Hin. subst P. cbv beta in HP. rewrite H in HP. exact (HP s a Hin).
Qed.

(** X4: status 405 is sent to the requests whose method is not POST and to
    no other: such a request is answered 405 first and never 405 again, and
    a POST request is never answered 405, whatever else happens. *)
Theorem status_405_exactly_for_non_post (env : Env) (req : Request)
    (c : Completion unit) (t : Trace) :
  handler env req [] = (c, t) ->
  (method req <> "POST" ->
   exists later,
     responses t = (405, onlyPost) :: later
     /\ forall s a, In (s, a) later -> s <> 405)
  /\ (method req = "POST" -> forall s a, In (s, a) (responses t) -> s <> 405).
Proof.
  pose (P := fun r : Completion unit * Trace =>
    (String.eqb (method req) "POST" = false ->
     exists later,
       responses (snd r) = (405, onlyPost) :: later
       /\ forall s a, In (s, a) later -> s <> 405)
    /\ (String.eqb (method req) "POST" = true ->
        forall s a, In (s, a) (responses (snd r)) -> s <> 405)).
  assert (HP : P (handler env req [])).
  { explore.
    all: subst P; cbv beta; cbn [fst snd]; observe.
    all: split; intros Hmethod; try discriminate Hmethod.
    all: try (eexists; split; [reflexivity|]).
    all: let Hin := fresh "Hin" in
         intros ? ? Hin; cbn [In] in Hin; try contradiction;
         decompose [or] Hin; clear Hin; try contradiction.
    all: match goal with
         | H : (_, _) = (_, _) |- _ => injection H as <- <-
         end; discriminate. }
  intros H. subst P. cbv beta in HP. rewrite H in HP. destruct HP as (H1 & H2).
  split; intros Hm.
  - apply H1. now apply String.eqb_neq.
  - apply H2. now apply String.eqb_eq.
Qed.

(** X5: when the body is missing, or one of the three addresses is missing
    or does not parse, the handler throws: it has called no collaborator,
    submitted nothing, and a POST request is left without any answer. *)
Theorem unparseable_request_throws_before_any_call (env : Env) (req : Request) :
  (body req = None
   \/ exists b,
        body req = Some b
        /\ (parses env (body_mint b) = false
            \/ parses env (body_userPubkey b) = false
            \/ parses env (body_stakePoolKey b) = false)) ->
  exists e t,
    handler env req [] = (Throw e, t)
    /\ calls t = []
    /\ submitted t = []
    /\ (method req = "POST" -> responses t = []).
Proof.
  intros Hbad.
  pose (P := fun r : Completion unit * Trace =>
    (exists e, fst r = Throw e)
    /\ calls (snd r) = []
    /\ submitted (snd r) = []
    /\ (String.eqb (method req) "POST" = true -> responses (snd r) = [])).
  assert (HP : P (handler env req [])).
  { destruct Hbad as [Hnone | (b & Hsome & Hfield)].
    - explore.
      all: subst P; cbv beta; cbn [fst snd]; observe.
      all: repeat split; try (eexists; reflexivity); intros Hm;
           discriminate Hm.
    - unfold parses in Hfield.
      destruct (body_mint b) as [m|] eqn:Em;
        destruct (body_userPubkey b) as [u|] eqn:Eu;
        destruct (body_stakePoolKey b) as [p|] eqn:Ep;
        try (destruct (validAddress env m) eqn:Vm);
        try (destruct (validAddress env u) eqn:Vu);
        try (destruct (validAddress env p) eqn:Vp);
        try (exfalso; decompose [or] Hfield; discriminate);
        clear Hfield.
      all: explore.
      all: subst P; cbv beta; cbn [fst snd]; observe.
      all: repeat split; try (eexists; reflexivity); intros Hm;
           discriminate Hm. }
  subst P. cbv beta in HP. destruct HP as ((e & He) & Hc & Hs & Hr).
  exists e, (snd (handler env req [])).
  split; [rewrite <- He; apply surjective_pairing|].
  repeat (split; [assumption|]).
  intros Hm. apply Hr. now apply String.eqb_eq.
Qed.

(** X6: when the administrative key is not configured or does not load,
    the POST request is answered 500 with the generic error and nothing
    else happens: no collaborator is called and nothing is submitted. *)
Theorem admin_key_failure_is_answered_500 (env : Env) (req : Request) (b : Body)
    (mint userPubkey stakePoolKey endpoint : string) :
  method req = "POST" ->
  body req = Some b ->
  body_mint b = Some mint ->
  body_userPubkey b = Some userPubkey ->
  body_stakePoolKey b = Some stakePoolKey ->
  validAddress env mint = true ->
  validAddress env userPubkey = true ->
  validAddress env stakePoolKey = true ->
  MAINNET_PRIMARY env = Some endpoint ->
  validEndpoint env endpoint = true ->
  (STAKING_ADMIN_PRIVATE_KEY env = None
   \/ exists secret,
        STAKING_ADMIN_PRIVATE_KEY env = Some secret
        /\ ext_secretKey env secret = None) ->
  exists t,
    handler env req [] = (Normal tt, t)
    /\ responses t = [(500, notCreated)]
    /\ calls t = []
    /\ submitted t = [].
Proof.
  intros Hm Hbody Hmint Huser Hpool Vmint Vuser Vpool Hendpoint Vendpoint Hkey.
  apply String.eqb_eq in Hm.
  destruct Hkey as [Hnone | (secret & Hsome & Hload)];
    (eexists; split; [explore; reflexivity|]; repeat split; reflexivity).
Qed.

Lemma pow10_positive (d : nat) : 0 < pow10 d.
Proof. unfold pow10. apply Z.pow_pos_nonneg; lia. Qed.

Lemma pow10_above_one (d : nat) : d <> 0%nat -> 1 < pow10 d.
Proof. intros H. unfold pow10. apply Z.pow_gt_1; lia. Qed.

(** The handler's comparison, on integers. *)
Lemma descaled_equals (stored expected : Z) (d : nat) :
  (descaled stored d == inject_Z expected)%Q <-> stored = expected * pow10 d.
Proof.
  unfold descaled. pose proof (pow10_positive d) as Hp.
  destruct (pow10 d) as [|q|q]; try lia.
  unfold Qeq, Qdiv, Qmult, Qinv, inject_Z. cbn [Qnum Qden]. lia.
Qed.

Section Refresh.

(** A POST request that reaches the reward entry: the addresses parse, the
    endpoint and the key work, the distributor exists, the stake entry and
    reward entry addresses are derived, and the reward entry exists with a
    multiplier that converts to a number. *)
Variables (env : Env) (req : Request) (b : Body).
Variables (mint userPubkey stakePoolKey endpoint secret : string).
Variables (keypair : Keypair) (rewardDistributorId : PublicKey).
Variables (rewardDistributor : RewardDistributor).
Variables (stakeEntryId rewardEntryId : PublicKey) (entry : RewardEntry).

Hypothesis Hmethod : method req = "POST".
Hypothesis Hbody : body req = Some b.
Hypothesis Hmint : body_mint b = Some mint.
Hypothesis Huser : body_userPubkey b = Some userPubkey.
Hypothesis Hpool : body_stakePoolKey b = Some stakePoolKey.
Hypothesis Vmint : validAddress env mint = true.
Hypothesis Vuser : validAddress env userPubkey = true.
Hypothesis Vpool : validAddress env stakePoolKey = true.
Hypothesis Hendpoint : MAINNET_PRIMARY env = Some endpoint.
Hypothesis Vendpoint : validEndpoint env endpoint = true.
Hypothesis Hsecret : STAKING_ADMIN_PRIVATE_KEY env = Some secret.
Hypothesis Hkeypair : ext_secretKey env secret = Some keypair.
Hypothesis HrdId :
  ext_findRewardDistributorId env (PK stakePoolKey) = Some rewardDistributorId.
Hypothesis Hrd :
  ext_getRewardDistributor env (Conn endpoint) rewardDistributorId
  = Some rewardDistributor.
Hypothesis Hse :
  ext_findStakeEntryIdFromMint env (Conn endpoint) (PK userPubkey)
    (PK stakePoolKey) (PK mint) = Some stakeEntryId.
Hypothesis Hre :
  ext_findRewardEntryId env (rd_pubkey rewardDistributor) stakeEntryId
  = Some rewardEntryId.
Hypothesis Hentry :
  ext_getRewardEntry env (Conn endpoint) rewardEntryId = Some entry.
Hypothesis Hsafe : Z.abs (multiplier entry) < two53.

(** X7: the request is answered "already set" exactly when the stored
    multiplier is the yield times 10^decimals times 10^decimals, that is
    when the stored multiplier divided by 10^decimals is the expected
    multiplier. *)
Theorem already_set_exactly_when :
  exists t,
    handler env req [] = (Normal tt, t)
    /\ (responses t
        = [(200, alreadySet (expectedYieldOf env (PK mint) (Conn endpoint)))]
        <-> multiplier entry
            = expectedYieldOf env (PK mint) (Conn endpoint)
              * 10 ^ Z.of_nat (multiplierDecimals rewardDistributor)
              * 10 ^ Z.of_nat (multiplierDecimals rewardDistributor)).
Proof.
  pose proof Hmethod as Hm. apply String.eqb_eq in Hm.
  pose proof Hsafe as Hs. apply Z.ltb_lt in Hs.
  pose (P := fun r : Completion unit * Trace =>
    fst r = Normal tt
    /\ (responses (snd r)
        = [(200, alreadySet (expectedYieldOf env (PK mint) (Conn endpoint)))]
        <-> Qeq_bool
              (inject_Z (multiplier entry) /
               inject_Z (pow10 (multiplierDecimals rewardDistributor)))
              (inject_Z (expectedYieldOf env (PK mint) (Conn endpoint) *
                         pow10 (multiplierDecimals rewardDistributor)))
            = true)).
  assert (HP : P (handler env req [])).
  { explore.
    all: subst P; cbv beta; cbn [fst snd]; observe.
    all: split; [reflexivity|].
    all: split; intros Hx; try reflexivity; try discriminate Hx. }
  subst P. cbv beta in HP. destruct HP as (Hc & Hiff).
  exists (snd (handler env req [])).
  split; [rewrite <- Hc; apply surjective_pairing|].
  rewrite Hiff, Qeq_bool_iff.
  apply (descaled_equals (multiplier entry)
           (expectedYieldOf env (PK mint) (Conn endpoint)
            * pow10 (multiplierDecimals rewardDistributor))
           (multiplierDecimals rewardDistributor)).
Qed.

(** X10: when the update is needed and [executeTransaction] rejects the
    transaction, the request is answered 500 with the generic error, after
    the one attempt to submit; no "ok" is sent. *)
Theorem rejected_submission_is_answered_500 :
  ~ (descaled (multiplier entry) (multiplierDecimals rewardDistributor)
     == inject_Z (expectedMultiplierOf env (PK mint) (Conn endpoint)
                    rewardDistributor))%Q ->
  expectedMultiplierOf env (PK mint) (Conn endpoint) rewardDistributor < two53 ->
  ext_updateRewardEntry env (Conn endpoint) (WalletOf keypair)
    (updateParams (PK stakePoolKey) rewardDistributor stakeEntryId
       (expectedMultiplierOf env (PK mint) (Conn endpoint) rewardDistributor))
  = true ->
  ext_executeTransaction env (Conn endpoint) (WalletOf keypair)
    [UpdateRewardEntryIx (WalletOf keypair)
       (updateParams (PK stakePoolKey) rewardDistributor stakeEntryId
          (expectedMultiplierOf env (PK mint) (Conn endpoint) rewardDistributor))]
    [keypair] = false ->
  exists t,
    handler env req [] = (Normal tt, t)
    /\ responses t = [(500, notCreated)]
    /\ submitted t
       = [[UpdateRewardEntryIx (WalletOf keypair)
             (updateParams (PK stakePoolKey) rewardDistributor stakeEntryId
                (expectedMultiplierOf env (PK mint) (Conn endpoint)
                   rewardDistributor))]].
Proof.
  intros Hneq Hbn Hupd Hexec.
  pose proof Hmethod as Hm. apply String.eqb_eq in Hm.
  pose proof Hsafe as Hs. apply Z.ltb_lt in Hs.
  apply Z.ltb_lt in Hbn.
  unfold updateParams, descaled, expectedMultiplierOf in *.
  destruct (Qeq_bool
              (inject_Z (multiplier entry) /
               inject_Z (pow10 (multiplierDecimals rewardDistributor)))
              (inject_Z (expectedYieldOf env (PK mint) (Conn endpoint) *
                         pow10 (multiplierDecimals rewardDistributor))))
    eqn:EQ; [apply Qeq_bool_iff in EQ; contradiction|].
  pose (P := fun r : Completion unit * Trace =>
    fst r = Normal tt
    /\ responses (snd r) = [(500, notCreated)]
    /\ submitted (snd r)
       = [[UpdateRewardEntryIx (WalletOf keypair)
             {| up_stakePoolId := PK stakePoolKey;
                up_rewardDistributorId := rd_pubkey rewardDistributor;
                up_stakeEntryId := stakeEntryId;
                up_multiplier :=
                  expectedYieldOf env (PK mint) (Conn endpoint) *
                  pow10 (multiplierDecimals rewardDistributor) |}]]).
  assert (HP : P (handler env req [])).
  { explore.
    all: subst P; cbv beta; cbn [fst snd]; observe.
    all: repeat split; reflexivity. }
  subst P. cbv beta in HP. destruct HP as (Hc & Hr & Hsub).
  exists (snd (handler env req [])).
  split; [rewrite <- Hc; apply surjective_pairing|].
  split; assumption.
Qed.

End Refresh.

Section Stored.

(** A request, of any method, that reaches the reward entry lookup, with an
    update instruction builder that works. *)
Variables (env : Env) (req : Request) (b : Body).
Variables (mint userPubkey stakePoolKey endpoint secret : string).
Variables (keypair : Keypair) (rewardDistributorId : PublicKey).
Variables (rewardDistributor : RewardDistributor).
Variables (stakeEntryId rewardEntryId : PublicKey) (entry : RewardEntry).

Hypothesis Hbody : body req = Some b.
Hypothesis Hmint : body_mint b = Some mint.
Hypothesis Huser : body_userPubkey b = Some userPubkey.
Hypothesis Hpool : body_stakePoolKey b = Some stakePoolKey.
Hypothesis Vmint : validAddress env mint = true.
Hypothesis Vuser : validAddress env userPubkey = true.
Hypothesis Vpool : validAddress env stakePoolKey = true.
Hypothesis Hendpoint : MAINNET_PRIMARY env = Some endpoint.
Hypothesis Vendpoint : validEndpoint env endpoint = true.
Hypothesis Hsecret : STAKING_ADMIN_PRIVATE_KEY env = Some secret.
Hypothesis Hkeypair : ext_secretKey env secret = Some keypair.
Hypothesis HrdId :
  ext_findRewardDistributorId env (PK stakePoolKey) = Some rewardDistributorId.
Hypothesis Hrd :
  ext_getRewardDistributor env (Conn endpoint) rewardDistributorId
  = Some rewardDistributor.
Hypothesis Hse :
  ext_findStakeEntryIdFromMint env (Conn endpoint) (PK userPubkey)
    (PK stakePoolKey) (PK mint) = Some stakeEntryId.
Hypothesis Hre :
  ext_findRewardEntryId env (rd_pubkey rewardDistributor) stakeEntryId
  = Some rewardEntryId.
Hypothesis Hentry :
  ext_getRewardEntry env (Conn endpoint) rewardEntryId = Some entry.
Hypothesis Hbn :
  expectedMultiplierOf env (PK mint) (Conn endpoint) rewardDistributor < two53.
Hypothesis Hupd :
  ext_updateRewardEntry env (Conn endpoint) (WalletOf keypair)
    (updateParams (PK stakePoolKey) rewardDistributor stakeEntryId
       (expectedMultiplierOf env (PK mint) (Conn endpoint) rewardDistributor))
  = true.

(** X8: a reward entry that already holds the multiplier the handler
    writes, yield × 10^decimals, is recognised as up to date only when the
    decimal precision is 0; with a positive precision the handler submits
    the same update again. *)
Theorem up_to_date_entry_is_updated_again :
  multiplier entry
  = expectedMultiplierOf env (PK mint) (Conn endpoint) rewardDistributor ->
  exists c t,
    handler env req [] = (c, t)
    /\ (multiplierDecimals rewardDistributor = 0%nat ->
        submitted t = []
        /\ (method req = "POST" ->
            responses t
            = [(200, alreadySet (expectedYieldOf env (PK mint) (Conn endpoint)))]))
    /\ (multiplierDecimals rewardDistributor <> 0%nat ->
        submitted t
        = [[UpdateRewardEntryIx (WalletOf keypair)
              (updateParams (PK stakePoolKey) rewardDistributor stakeEntryId
                 (multiplier entry))]]).
Proof.
  intros Hstored.
  pose proof (expectedYieldOf_range env (PK mint) (Conn endpoint)) as Hy.
  pose proof (pow10_positive (multiplierDecimals rewardDistributor)) as Hp.
  assert (Hpos : 0 < expectedMultiplierOf env (PK mint) (Conn endpoint)
                       rewardDistributor)
    by (unfold expectedMultiplierOf; nia).
  assert (Hsafe : Z.abs (multiplier entry) < two53)
    by (rewrite Hstored, Z.abs_eq; lia).
  destruct (Nat.eq_dec (multiplierDecimals rewardDistributor) 0) as [Hd | Hd].
  - destruct already_set_run
      with (env := env) (req := req) (b := b) (mint := mint)
           (userPubkey := userPubkey) (stakePoolKey := stakePoolKey)
           (endpoint := endpoint) (secret := secret) (keypair := keypair)
           (rewardDistributorId := rewardDistributorId)
           (rewardDistributor := rewardDistributor)
           (stakeEntryId := stakeEntryId) (rewardEntryId := rewardEntryId)
           (entry := entry)
      as (c & t & Hrun & Hsub & Hpost); try assumption.
    { apply descaled_equals. rewrite Hstored, Hd. unfold pow10. cbn. lia. }
    exists c, t. split; [assumption|]. split; [|contradiction].
    intros _. split; [assumption|]. intros Hm. apply (Hpost Hm).
  - destruct update_run
      with (env := env) (req := req) (b := b) (mint := mint)
           (userPubkey := userPubkey) (stakePoolKey := stakePoolKey)
           (endpoint := endpoint) (secret := secret) (keypair := keypair)
           (rewardDistributorId := rewardDistributorId)
           (rewardDistributor := rewardDistributor)
           (stakeEntryId := stakeEntryId) (rewardEntryId := rewardEntryId)
           (entry := Some entry)
      as (c & t & Hrun & Hsub & _); try assumption.
    { split; [assumption|]. intros Heq. apply descaled_equals in Heq.
      pose proof (pow10_above_one _ Hd). rewrite Hstored in Heq. nia. }
    exists c, t. split; [assumption|]. split; [contradiction|].
    intros _. rewrite Hsub, Hstored. reflexivity.
Qed.

(** X9: when the reward entry exists and its descaled multiplier is not the
    expected one, the submitted transaction holds the update instruction
    alone: no initialisation is added for an entry that is there. *)
Theorem existing_entry_is_not_initialised :
  Z.abs (multiplier entry) < two53 ->
  ~ (descaled (multiplier entry) (multiplierDecimals rewardDistributor)
     == inject_Z (expectedMultiplierOf env (PK mint) (Conn endpoint)
                    rewardDistributor))%Q ->
  exists c t,
    handler env req [] = (c, t)
    /\ submitted t
       = [[UpdateRewardEntryIx (WalletOf keypair)
             (updateParams (PK stakePoolKey) rewardDistributor stakeEntryId
                (expectedMultiplierOf env (PK mint) (Conn endpoint)
                   rewardDistributor))]]
    /\ forall tx w ip, In tx (submitted t) -> ~ In (InitRewardEntryIx w ip) tx.
Proof.
  intros Hsafe Hneq.
  destruct update_run
    with (env := env) (req := req) (b := b) (mint := mint)
         (userPubkey := userPubkey) (stakePoolKey := stakePoolKey)
         (endpoint := endpoint) (secret := secret) (keypair := keypair)
         (rewardDistributorId := rewardDistributorId)
         (rewardDistributor := rewardDistributor)
         (stakeEntryId := stakeEntryId) (rewardEntryId := rewardEntryId)
         (entry := Some entry)
    as (c & t & Hrun & Hsub & _); try assumption.
  { split; assumption. }
  exists c, t. split; [assumption|]. split; [exact Hsub|].
  intros tx w ip Hin. rewrite Hsub in Hin. cbn in Hin.
  destruct Hin as [<- | []]. cbn. intros [H | []]. discriminate H.
Qed.

End Stored.

(** ** More on the metadata fetch and on the yield *)

Lemma getNFTMetadata_cases (env : Env) (mint : string) (connection : Connection) :
  exists r d,
    (forall t, getNFTMetadata env mint connection t = (Normal r, t ++ d))
    /\ (r = None <-> chainFails env mint connection)
    /\ (In (Log (LMetadataFailed mint)) d <-> r = None)
    /\ (forall n, r = Some n ->
        nft_mint n = PK mint
        /\ exists pda,
             ext_MetadataGetPDA env mint = Some pda
             /\ ext_MetadataLoad env connection pda = Some (onchainMetadata n)
             /\ ext_axiosGet env (uri (data (onchainMetadata n)))
                = Some (externalMetadata n))
    /\ (forall u, In (CaxiosGet u) (calls d) ->
        exists pda md,
          ext_MetadataGetPDA env mint = Some pda
          /\ ext_MetadataLoad env connection pda = Some md
          /\ u = uri (data md)).
Proof.
  unfold getNFTMetadata, try_catch, bind, external, emit, orThrow, PublicKey_new,
    console_log, emit, ret, throw, chainFails.
  destruct (ext_MetadataGetPDA env mint) as [pda|] eqn:E1.
  2:{ exists None, [Call (CMetadataGetPDA mint); Log (LMetadataFailed mint)].
      split; [intros t; flatten_trace|].
      split; [split; [now left | reflexivity]|].
      split; [split; [reflexivity | intros _; cbn; tauto]|].
      split; [discriminate|].
      intros u [H | []]. discriminate H. }
  destruct (ext_MetadataLoad env connection pda) as [md|] eqn:E2.
  2:{ exists None, [Call (CMetadataGetPDA mint); Call (CMetadataLoad pda);
                    Log (LMetadataFailed mint)].
      split; [intros t; flatten_trace|].
      split; [split; [intros _; right; exists pda; split; [reflexivity|now left]
                     | reflexivity]|].
      split; [split; [reflexivity | intros _; cbn; tauto]|].
      split; [discriminate|].
      intros u [H | [H | []]]; discriminate H. }
  destruct (ext_axiosGet env (uri (data md))) as [js|] eqn:E3.
  2:{ exists None, [Call (CMetadataGetPDA mint); Call (CMetadataLoad pda);
                    Call (CaxiosGet (uri (data md))); Log (LMetadataFailed mint)].
      split; [intros t; flatten_trace|].
      split; [split; [intros _; right; exists pda; split; [reflexivity|];
                      right; exists md; split; [assumption | now left]
                     | reflexivity]|].
      split; [split; [reflexivity | intros _; cbn; tauto]|].
      split; [discriminate|].
      intros u [H | [H | [H | []]]]; try discriminate H.
      injection H as <-. exists pda, md. now repeat split. }
  destruct (validAddress env mint) eqn:E4.
  2:{ exists None, [Call (CMetadataGetPDA mint); Call (CMetadataLoad pda);
                    Call (CaxiosGet (uri (data md))); Log (LMetadataFailed mint)].
      split; [intros t; flatten_trace|].
      split; [split; [intros _; right; exists pda; split; [reflexivity|];
                      right; exists md; split; [assumption | now right]
                     | reflexivity]|].
      split; [split; [reflexivity | intros _; cbn; tauto]|].
      split; [discriminate|].
      intros u [H | [H | [H | []]]]; try discriminate H.
      injection H as <-. exists pda, md. now repeat split. }
  eexists (Some _), [Call (CMetadataGetPDA mint); Call (CMetadataLoad pda);
                     Call (CaxiosGet (uri (data md)))].
  split; [intros t; flatten_trace|].
  split.
  { split; [discriminate|].
    intros [H|(pda' & H1 & [H|(md' & H2 & [H|H])])]; try discriminate.
    - injection H1 as <-. congruence.
    - injection H1 as <-. rewrite E2 in H2. injection H2 as <-. congruence. }
  split.
  { split; [|discriminate].
    cbn. intros [H | [H | [H | []]]]; discriminate H. }
  split.
  { intros n Hn. injection Hn as <-. cbn. split; [reflexivity|].
    exists pda. now repeat split. }
  intros u [H | [H | [H | []]]]; try discriminate H.
  injection H as <-. exists pda, md. now repeat split.
Qed.

(** X11: [getNFTMetadata] returns the absent result exactly when a step of
    the chain fails (the metadata address, the account, the HTTP fetch or
    the mint key), and it logs the failure exactly in that case. *)
Theorem getNFTMetadata_absent_exactly_on_failure
    (env : Env) (mint : string) (connection : Connection) (t : Trace) :
  exists r d,
    getNFTMetadata env mint connection t = (Normal r, t ++ d)
    /\ (r = None <-> chainFails env mint connection)
    /\ (In (Log (LMetadataFailed mint)) d <-> r = None).
Proof.
  destruct (getNFTMetadata_cases env mint connection)
    as (r & d & Hrun & Hfail & Hlog & _).
  exists r, d. split; [apply Hrun|]. split; assumption.
Qed.

(** X12: a present result of [getNFTMetadata] holds the mint key, the
    account loaded from the metadata address of the mint, and the JSON
    fetched from the uri recorded in that account; and no HTTP request is
    made unless that account was loaded, the only uri requested being the
    recorded one. *)
Theorem getNFTMetadata_fetches_recorded_uri
    (env : Env) (mint : string) (connection : Connection) (t : Trace) :
  exists r d,
    getNFTMetadata env mint connection t = (Normal r, t ++ d)
    /\ (forall n, r = Some n ->
        nft_mint n = PK mint
        /\ exists pda,
             ext_MetadataGetPDA env mint = Some pda
             /\ ext_MetadataLoad env connection pda = Some (onchainMetadata n)
             /\ ext_axiosGet env (uri (data (onchainMetadata n)))
                = Some (externalMetadata n))
    /\ (forall u, In (CaxiosGet u) (calls d) ->
        exists pda md,
          ext_MetadataGetPDA env mint = Some pda
          /\ ext_MetadataLoad env connection pda = Some md
          /\ u = uri (data md)).
Proof.
  destruct (getNFTMetadata_cases env mint connection)
    as (r & d & Hrun & _ & _ & Hsome & Hget).
  exists r, d. split; [apply Hrun|]. split; assumption.
Qed.

Lemma traitValue_relevant (name : string) (l : list Attribute) :
  In name ["Skin"; "Badge"; "Vignette"] ->
  traitValue name (Some (filter relevant l)) = traitValue name (Some l).
Proof.
  intros Hname. unfold traitValue. f_equal. apply find_filter.
  intros a Ha. apply String.eqb_eq in Ha. unfold relevant. rewrite Ha.
  cbn [In] in Hname.
  decompose [or] Hname; try contradiction;
    match goal with H : _ = name |- _ => rewrite <- H end; reflexivity.
Qed.

Lemma yieldRule_relevant (l : list Attribute) :
  yieldRule (Some (filter relevant l)) = yieldRule (Some l).
Proof.
  unfold yieldRule. rewrite !traitValue_relevant by (cbn; tauto). reflexivity.
Qed.

Lemma Permutation_filter_attr (p : Attribute -> bool) (l1 l2 : list Attribute) :
  Permutation l1 l2 -> Permutation (filter p l1) (filter p l2).
Proof.
  induction 1 as [| x l l' _ IH | x y l | l l' l'' _ IH1 _ IH2]; cbn [filter].
  - constructor.
  - destruct (p x); [now constructor | assumption].
  - destruct (p x), (p y); try apply Permutation_refl. apply perm_swap.
  - now transitivity (filter p l').
Qed.

Lemma find_permutation (p : Attribute -> bool) (l1 l2 : list Attribute) :
  Permutation l1 l2 ->
  (List.length (filter p l1) <= 1)%nat ->
  find p l1 = find p l2.
Proof.
  intros Hperm Hone. apply (Permutation_filter_attr p) in Hperm.
  rewrite <- !first_filter.
  destruct (filter p l1) as [|a [|a' rest]]; cbn [List.length] in Hone; try lia.
  - apply Permutation_nil in Hperm. now rewrite Hperm.
  - apply Permutation_length_1_inv in Hperm. now rewrite Hperm.
Qed.

(** X13: an attribute whose trait is none of "Skin", "Badge", "Vignette"
    has no influence on the yield: two fetched attribute lists with the
    same attributes of these three traits, in the same order, give the
    same yield. *)
Theorem other_traits_are_ignored
    (env1 env2 : Env) (mint1 mint2 : PublicKey) (connection1 connection2 : Connection)
    (t1 t2 u1 u2 : Trace) (nft1 nft2 : option NFT) (l1 l2 : list Attribute) :
  getNFTMetadata env1 (toString mint1) connection1 t1 = (Normal nft1, u1) ->
  getNFTMetadata env2 (toString mint2) connection2 t2 = (Normal nft2, u2) ->
  attributesOf nft1 = Some l1 ->
  attributesOf nft2 = Some l2 ->
  filter relevant l1 = filter relevant l2 ->
  exists y v1 v2,
    computeExpectedYield env1 mint1 connection1 t1 = (Normal y, v1)
    /\ computeExpectedYield env2 mint2 connection2 t2 = (Normal y, v2).
Proof.
  intros H1 H2 A1 A2 Hsame.
  destruct (computeExpectedYield_bind env1 mint1 connection1 nft1) as (d1 & _ & R1).
  destruct (computeExpectedYield_bind env2 mint2 connection2 nft2) as (d2 & _ & R2).
  exists (yieldRule (Some l1)), (u1 ++ d1), (u2 ++ d2).
  rewrite (R1 _ _ H1), (R2 _ _ H2), A1, A2.
  split; [reflexivity|].
  now rewrite <- (yieldRule_relevant l1), Hsame, yieldRule_relevant.
Qed.

(** X14: the order of the attributes matters only among attributes of the
    same trait: when each of "Skin", "Badge" and "Vignette" occurs at most
    once, any reordering of the fetched list gives the same yield. *)
Theorem attribute_order_is_irrelevant_without_repeats
    (env1 env2 : Env) (mint1 mint2 : PublicKey) (connection1 connection2 : Connection)
    (t1 t2 u1 u2 : Trace) (nft1 nft2 : option NFT) (l1 l2 : list Attribute) :
  getNFTMetadata env1 (toString mint1) connection1 t1 = (Normal nft1, u1) ->
  getNFTMetadata env2 (toString mint2) connection2 t2 = (Normal nft2, u2) ->
  attributesOf nft1 = Some l1 ->
  attributesOf nft2 = Some l2 ->
  Permutation l1 l2 ->
  (occurrences "Skin" l1 <= 1)%nat ->
  (occurrences "Badge" l1 <= 1)%nat ->
  (occurrences "Vignette" l1 <= 1)%nat ->
  exists y v1 v2,
    computeExpectedYield env1 mint1 connection1 t1 = (Normal y, v1)
    /\ computeExpectedYield env2 mint2 connection2 t2 = (Normal y, v2).
Proof.
  intros H1 H2 A1 A2 Hperm Hs Hb Hv.
  destruct (computeExpectedYield_bind env1 mint1 connection1 nft1) as (d1 & _ & R1).
  destruct (computeExpectedYield_bind env2 mint2 connection2 nft2) as (d2 & _ & R2).
  exists (yieldRule (Some l1)), (u1 ++ d1), (u2 ++ d2).
  rewrite (R1 _ _ H1), (R2 _ _ H2), A1, A2.
  split; [reflexivity|].
  unfold yieldRule, traitValue, occurrences in *.
  now rewrite <- (find_permutation _ l1 l2 Hperm Hs),
              <- (find_permutation _ l1 l2 Hperm Hb),
              <- (find_permutation _ l1 l2 Hperm Hv).
Qed.

Lemma badgeLog_recognised (l : list Attribute) (v : string) :
  traitValue "Badge" (Some l) = Some v ->
  In v (map fst badgeTiers) ->
  badgeLog (Some l) = [].
Proof.
  intros Hv Hin. unfold badgeLog. rewrite Hv.
  destruct (in_dec string_dec v (map fst badgeTiers)); [reflexivity | contradiction].
Qed.

Lemma badgeLog_unrecognised (l : list Attribute) (v : string) :
  traitValue "Badge" (Some l) = Some v ->
  ~ In v (map fst badgeTiers) ->
  badgeLog (Some l) = [Log (LBadgeUnrecognised v)].
Proof.
  intros Hv Hin. unfold badgeLog. rewrite Hv.
  destruct (in_dec string_dec v (map fst badgeTiers)); [contradiction | reflexivity].
Qed.

(** X15: after the fetch, [computeExpectedYield] writes to the console only
    when the first "Badge" attribute names none of the five tiers, and then
    exactly that value once; it calls no collaborator of its own. *)
Theorem unrecognised_badge_is_logged (env : Env) (mint : PublicKey)
    (connection : Connection) (t t1 : Trace) (nft : option NFT) :
  getNFTMetadata env (toString mint) connection t = (Normal nft, t1) ->
  computeExpectedYield env mint connection t
  = (Normal (yieldRule (attributesOf nft)), t1 ++ badgeLog (attributesOf nft)).
Proof.
  intros H.
  destruct (computeExpectedYield_bind env mint connection nft) as (d & _ & Hd).
  rewrite (Hd t t1 H). do 2 f_equal.
  (* the suffix [d] is read off the run itself *)
  specialize (Hd t t1 H). revert Hd.
  unfold computeExpectedYield, bind at 1. rewrite H.
  fold (attributesOf nft).
  destruct (attributesOf nft) as [l|] eqn:EA.
  2:{ cbn. intros Hd. injection Hd as Hd. 
      rewrite <- (app_nil_r t1) in Hd at 1. now apply app_inv_head in Hd. }
  cbv beta iota zeta delta [first filterTrait].
  pose proof (filter_head (fun att => String.eqb (trait_type att) "Badge") l) as Hb.
  destruct (filter (fun att => String.eqb (trait_type att) "Badge") l)
    as [|b rest] eqn:EF.
  - unfold bind, ret. intros Hd. injection Hd as _ Hd.
    rewrite <- (app_nil_r t1) in Hd at 1. apply app_inv_head in Hd.
    unfold badgeLog, traitValue. now rewrite Hb.
  - assert (Hv : traitValue "Badge" (Some l) = Some (value b))
      by (unfold traitValue; now rewrite Hb).
    cbv beta iota zeta.
    destruct (String.eqb (value b) "Bronze") eqn:B1;
      [|destruct (String.eqb (value b) "Silver") eqn:B2;
        [|destruct (String.eqb (value b) "Gold") eqn:B3;
          [|destruct (String.eqb (value b) "Platinum") eqn:B4;
            [|destruct (String.eqb (value b) "Diamond") eqn:B5]]]].
    1-5: unfold bind, ret; intros Hd; injection Hd as _ Hd;
         rewrite <- (app_nil_r t1) in Hd at 1; apply app_inv_head in Hd;
         rewrite <- Hd; symmetry; apply (badgeLog_recognised l (value b) Hv);
         match goal with
         | E : String.eqb (value _) _ = true |- _ =>
             apply String.eqb_eq in E; rewrite E; cbn; tauto
         end.
    unfold bind, ret, console_log, emit. intros Hd. injection Hd as _ Hd.
    apply app_inv_head in Hd. rewrite <- Hd. symmetry.
    apply (badgeLog_unrecognised l (value b) Hv).
    cbn. intros Hin. decompose [or] Hin; try contradiction;
      match goal with
      | E : _ = value _ |- _ =>
          rewrite <- E in *; cbn in *; discriminate
      end.
Qed.

(** ** These theorems at the sample request *)

Lemma submits_at_most_one_well_formed_transaction_witness :
  (List.length (submitted (snd (handler sampleWritten (post sampleBody) []))) <= 1)%nat.
Proof.
  destruct (submits_at_most_one_well_formed_transaction
              sampleWritten (post sampleBody)
              (fst (handler sampleWritten (post sampleBody) []))
              (snd (handler sampleWritten (post sampleBody) [])))
    as [H | (w & p & y & d & [H | (ip & H)] & _)];
    [vm_compute; reflexivity | rewrite H; cbn; lia ..].
Defined.

Lemma accepted_request_gets_one_answer_witness :
  exists t s a,
    handler sampleSet (post sampleBody) [] = (Normal tt, t)
    /\ responses t = [(s, a)].
Proof.
  destruct (accepted_request_gets_one_answer sampleSet (post sampleBody)
              sampleBody mintAddress userAddress poolAddress
              "https://rpc.example"
              eq_refl eq_refl eq_refl eq_refl eq_refl eq_refl eq_refl eq_refl
              eq_refl eq_refl)
    as (t & s & a & y & Hrun & Hr & _).
  exists t, s, a. split; assumption.
Defined.

Lemma answer_reflects_submission_witness :
  exists tx, submitted (snd (handler sampleWritten (post sampleBody) [])) = [tx].
Proof.
  assert (Hrun : handler sampleWritten (post sampleBody) []
                 = (fst (handler sampleWritten (post sampleBody) []),
                    snd (handler sampleWritten (post sampleBody) [])))
    by (vm_compute; reflexivity).
  assert (Hin : In (200, updated 15)
                  (responses (snd (handler sampleWritten (post sampleBody) []))))
    by (vm_compute; left; reflexivity).
  destruct (answer_reflects_submission sampleWritten (post sampleBody) _ _
              200 (updated 15) Hrun Hin) as (Hok & _).
  destruct (Hok eq_refl) as (e & s & k & tx & _ & _ & _ & Hs & _).
  exists tx. exact Hs.
Defined.

Lemma status_405_exactly_for_non_post_witness :
  (exists later,
     responses (snd (handler sampleWritten sampleGet [])) = (405, onlyPost) :: later)
  /\ forall s a,
       In (s, a) (responses (snd (handler sampleWritten (post sampleBody) []))) ->
       s <> 405.
Proof.
  split.
  - destruct (status_405_exactly_for_non_post sampleWritten sampleGet
                (fst (handler sampleWritten sampleGet []))
                (snd (handler sampleWritten sampleGet [])))
      as (Hget & _); [vm_compute; reflexivity|].
    destruct Hget as (later & H & _); [discriminate|].
    exists later. exact H.
  - destruct (status_405_exactly_for_non_post sampleWritten (post sampleBody)
                (fst (handler sampleWritten (post sampleBody) []))
                (snd (handler sampleWritten (post sampleBody) [])))
      as (_ & Hpost); [vm_compute; reflexivity|].
    apply Hpost. reflexivity.
Defined.

Lemma unparseable_request_throws_before_any_call_witness :
  exists e t,
    handler sampleSet (post malformedMint) [] = (Throw e, t)
    /\ calls t = []
    /\ responses t = [].
Proof.
  destruct (unparseable_request_throws_before_any_call sampleSet (post malformedMint))
    as (e & t & Hrun & Hc & _ & Hr).
  - right. exists malformedMint. split; [reflexivity|]. left. reflexivity.
  - exists e, t. repeat (split; [assumption|]). apply Hr. reflexivity.
Defined.

Lemma admin_key_failure_is_answered_500_witness :
  responses (snd (handler (keyless sampleSet) (post sampleBody) []))
  = [(500, notCreated)].
Proof.
  destruct (admin_key_failure_is_answered_500 (keyless sampleSet) (post sampleBody)
              sampleBody mintAddress userAddress poolAddress "https://rpc.example"
              eq_refl eq_refl eq_refl eq_refl eq_refl eq_refl eq_refl eq_refl
              eq_refl eq_refl (or_introl eq_refl)) as (t & Hrun & Hr & _).
  rewrite Hrun. exact Hr.
Defined.

Lemma already_set_exactly_when_witness :
  (exists t,
     handler sampleSet (post sampleBody) [] = (Normal tt, t)
     /\ responses t = [(200, alreadySet 15)])
  /\ (exists t,
        handler sampleOther (post sampleBody) [] = (Normal tt, t)
        /\ responses t <> [(200, alreadySet 15)]).
Proof.
  split.
  - destruct already_set_exactly_when
      with (env := sampleSet) (req := post sampleBody) (b := sampleBody)
           (mint := mintAddress) (userPubkey := userAddress)
           (stakePoolKey := poolAddress) (endpoint := "https://rpc.example")
           (secret := "[1,2,3]") (keypair := sampleAdmin)
           (rewardDistributorId := sampleDistributorId)
           (rewardDistributor := sampleDistributor 2)
           (stakeEntryId := sampleStakeEntry) (rewardEntryId := sampleRewardEntry)
           (entry := {| re_pubkey := sampleRewardEntry; multiplier := 150000 |})
      as (t & Hrun & Hiff); try reflexivity.
    exists t. split; [assumption|]. apply Hiff. vm_compute. reflexivity.
  - destruct already_set_exactly_when
      with (env := sampleOther) (req := post sampleBody) (b := sampleBody)
           (mint := mintAddress) (userPubkey := userAddress)
           (stakePoolKey := poolAddress) (endpoint := "https://rpc.example")
           (secret := "[1,2,3]") (keypair := sampleAdmin)
           (rewardDistributorId := sampleDistributorId)
           (rewardDistributor := sampleDistributor 2)
           (stakeEntryId := sampleStakeEntry) (rewardEntryId := sampleRewardEntry)
           (entry := {| re_pubkey := sampleRewardEntry; multiplier := 7 |})
      as (t & Hrun & Hiff); try reflexivity.
    exists t. split; [assumption|]. intros H. apply Hiff in H.
    vm_compute in H. discriminate H.
Defined.

Lemma up_to_date_entry_is_updated_again_witness :
  exists c t,
    handler sampleWritten (post sampleBody) [] = (c, t)
    /\ submitted t
       = [[UpdateRewardEntryIx (WalletOf sampleAdmin)
             (updateParams (PK poolAddress) (sampleDistributor 2)
                sampleStakeEntry 1500)]].
Proof.
  destruct up_to_date_entry_is_updated_again
    with (env := sampleWritten) (req := post sampleBody) (b := sampleBody)
         (mint := mintAddress) (userPubkey := userAddress)
         (stakePoolKey := poolAddress) (endpoint := "https://rpc.example")
         (secret := "[1,2,3]") (keypair := sampleAdmin)
         (rewardDistributorId := sampleDistributorId)
         (rewardDistributor := sampleDistributor 2)
         (stakeEntryId := sampleStakeEntry) (rewardEntryId := sampleRewardEntry)
         (entry := {| re_pubkey := sampleRewardEntry; multiplier := 1500 |})
    as (c & t & Hrun & _ & Hagain); try reflexivity.
  exists c, t. split; [assumption|]. apply Hagain. discriminate.
Defined.

Lemma existing_entry_is_not_initialised_witness :
  exists c t,
    handler sampleOther (post sampleBody) [] = (c, t)
    /\ submitted t
       = [[UpdateRewardEntryIx (WalletOf sampleAdmin)
             (updateParams (PK poolAddress) (sampleDistributor 2)
                sampleStakeEntry 1500)]].
Proof.
  destruct existing_entry_is_not_initialised
    with (env := sampleOther) (req := post sampleBody) (b := sampleBody)
         (mint := mintAddress) (userPubkey := userAddress)
         (stakePoolKey := poolAddress) (endpoint := "https://rpc.example")
         (secret := "[1,2,3]") (keypair := sampleAdmin)
         (rewardDistributorId := sampleDistributorId)
         (rewardDistributor := sampleDistributor 2)
         (stakeEntryId := sampleStakeEntry) (rewardEntryId := sampleRewardEntry)
         (entry := {| re_pubkey := sampleRewardEntry; multiplier := 7 |})
    as (c & t & Hrun & Hsub & _); try reflexivity.
  - intros H. vm_compute in H. discriminate H.
  - exists c, t. split; [assumption|]. rewrite Hsub. reflexivity.
Defined.

Lemma rejected_submission_is_answered_500_witness :
  exists t,
    handler (rejecting sampleOther) (post sampleBody) [] = (Normal tt, t)
    /\ responses t = [(500, notCreated)].
Proof.
  destruct rejected_submission_is_answered_500
    with (env := rejecting sampleOther) (req := post sampleBody) (b := sampleBody)
         (mint := mintAddress) (userPubkey := userAddress)
         (stakePoolKey := poolAddress) (endpoint := "https://rpc.example")
         (secret := "[1,2,3]") (keypair := sampleAdmin)
         (rewardDistributorId := sampleDistributorId)
         (rewardDistributor := sampleDistributor 2)
         (stakeEntryId := sampleStakeEntry) (rewardEntryId := sampleRewardEntry)
         (entry := {| re_pubkey := sampleRewardEntry; multiplier := 7 |})
    as (t & Hrun & Hr & _); try reflexivity.
  - intros H. vm_compute in H. discriminate H.
  - exists t. split; assumption.
Defined.

Lemma other_traits_are_ignored_witness :
  exists y v1 v2,
    computeExpectedYield (sampleEnv 0 None (Some decorated) true) sampleMint
      sampleConnection [] = (Normal y, v1)
    /\ computeExpectedYield (sampleEnv 0 None (Some plain) true) sampleMint
         sampleConnection [] = (Normal y, v2).
Proof.
  apply (other_traits_are_ignored
           (sampleEnv 0 None (Some decorated) true)
           (sampleEnv 0 None (Some plain) true)
           sampleMint sampleMint sampleConnection sampleConnection [] []
           metadataCalls metadataCalls
           (Some (sampleNFT (Some decorated))) (Some (sampleNFT (Some plain)))
           decorated plain);
    reflexivity.
Defined.

Lemma attribute_order_is_irrelevant_without_repeats_witness :
  exists y v1 v2,
    computeExpectedYield (sampleEnv 0 None (Some decorated) true) sampleMint
      sampleConnection [] = (Normal y, v1)
    /\ computeExpectedYield (sampleEnv 0 None (Some reordered) true) sampleMint
         sampleConnection [] = (Normal y, v2).
Proof.
  apply (attribute_order_is_irrelevant_without_repeats
           (sampleEnv 0 None (Some decorated) true)
           (sampleEnv 0 None (Some reordered) true)
           sampleMint sampleMint sampleConnection sampleConnection [] []
           metadataCalls metadataCalls
           (Some (sampleNFT (Some decorated))) (Some (sampleNFT (Some reordered)))
           decorated reordered);
    try reflexivity; try (vm_compute; lia).
  apply (Permutation_rev decorated).
Defined.

Lemma unrecognised_badge_is_logged_witness :
  computeExpectedYield (sampleEnv 0 None (Some [attr "Badge" "Wood"]) true)
    sampleMint sampleConnection []
  = (Normal 2, metadataCalls ++ [Log (LBadgeUnrecognised "Wood")]).
Proof.
  apply (unrecognised_badge_is_logged
           (sampleEnv 0 None (Some [attr "Badge" "Wood"]) true)
           sampleMint sampleConnection [] metadataCalls
           (Some (sampleNFT (Some [attr "Badge" "Wood"])))).
  reflexivity.
Defined.

(** ** The fetched document as it comes: what the code tolerates *)











(** C2 as stated fails here: decimal precision 8, yield 2, stored
    multiplier 2·10^16.  The reward entry exists and its stored multiplier
    descaled by 10^8 is the expected multiplier 2·10^8, but the stored
    multiplier does not convert to a number: the answer is 500 with the
    generic error, not 200 "ignored". *)
Lemma large_stored_multiplier_is_answered_500 :
  ext_getRewardEntry sampleLarge sampleConnection sampleRewardEntry
  = Some {| re_pubkey := sampleRewardEntry; multiplier := 20000000000000000 |}
  /\ Qeq (descaled 20000000000000000 8)
         (inject_Z (expectedYieldOf sampleLarge sampleMint sampleConnection
                    * 10 ^ Z.of_nat 8))
  /\ exists t,
       handler sampleLarge (post sampleBody) [] = (Normal tt, t)
       /\ responses t = [(500, notCreated)]
       /\ ~ (exists answer,
               responses t = [(200, answer)] /\ type answer = Some ignored).
Proof.
  split; [reflexivity|]. split; [vm_compute; reflexivity|].
  eexists. split; [vm_compute; reflexivity|]. split; [reflexivity|].
  intros (answer & H & _). discriminate H.
Qed.

(** C3 as stated fails here: decimal precision 15, yield 15, stored
    multiplier 7.  The stored multiplier differs from the expected one,
    15·10^15, raw and descaled, but the expected multiplier does not
    convert to a big number: nothing is submitted and the answer is 500
    with the generic error. *)
Lemma large_expected_multiplier_is_not_submitted :
  ext_getRewardEntry sampleOverflow sampleConnection sampleRewardEntry
  = Some {| re_pubkey := sampleRewardEntry; multiplier := 7 |}
  /\ expectedYieldOf sampleOverflow sampleMint sampleConnection * 10 ^ Z.of_nat 15
     = 15000000000000000
  /\ 7 <> expectedYieldOf sampleOverflow sampleMint sampleConnection
          * 10 ^ Z.of_nat 15
  /\ ~ Qeq (descaled 7 15)
           (inject_Z (expectedYieldOf sampleOverflow sampleMint sampleConnection
                      * 10 ^ Z.of_nat 15))
  /\ exists t,
       handler sampleOverflow (post sampleBody) [] = (Normal tt, t)
       /\ submitted t = []
       /\ responses t = [(500, notCreated)].
Proof.
  split; [reflexivity|]. split; [vm_compute; reflexivity|].
  split; [vm_compute; discriminate|].
  split; [intros H; vm_compute in H; discriminate H|].
  eexists. split; [vm_compute; reflexivity|]. split; reflexivity.
Qed.
